(** * canvas-draw-app: the shape/scene engine of the whiteboard

    A shallow embedding of [src/components/Canvas.tsx] (the mouse-only canvas)
    and of its touch-enabled variant, with the properties of the history
    manager, the gesture handlers and the hit-testing geometry.

    Conventions of the embedding.
    - A JavaScript [number] that holds a coordinate or a length is a real
      number ([R]): rounding, infinities and NaN of IEEE doubles are not
      modelled.  A division whose divisor is zero has no real value and is
      tracked explicitly ([js_div]).
    - [historyIndex] and the millisecond clock only ever hold integers and are
      modelled in [Z].
    - An optional field ([width?: number]) is an [option]; [undefined] is
      [None].
    - A React component re-renders after each event.  A handler reads the
      state of the render it was created in (its closure) and queues updates;
      it is modelled as a function of the rendered state [s] that builds the
      next state by applying the setters to it.  Helpers that are called from
      several handlers ([saveToHistory], [undo], [redo]) take both the
      rendered state [s] they read and the pending state [q] they update.
    - A handler that throws keeps the updates queued before the throw:
      [Threw q].
    - The canvas element is mounted, so a pointer handler gets the position
      [(x, y)] that [getMousePos] / [getPointerPos] computes from the event;
      the cursor style, which only touches the DOM, is left out.  The
      [selectedTool] prop is an argument of each handler. *)

From Stdlib Require Import Reals Lra Lia ZArith String List Bool Psatz.
From Stdlib Require Import DecimalString.
Import ListNotations.

(** ** JavaScript primitives used by the component *)

Module JS.

Local Open Scope R_scope.

Definition ltb (a b : R) : bool := if Rlt_dec a b then true else false.
Definition leb (a b : R) : bool := if Rle_dec a b then true else false.
Definition gtb (a b : R) : bool := ltb b a.
Definition geb (a b : R) : bool := leb b a.
(** [a !== b] on numbers. *)
Definition neqb (a b : R) : bool := if Req_dec_T a b then false else true.

(** [v || 0] on an optional number: [undefined] and [0] both give [0]. *)
Definition orZero (v : option R) : R :=
  match v with Some r => r | None => 0 end.

(** [v || d] on an optional number: [undefined] and [0] both give [d]. *)
Definition orElse (v : option R) (d : R) : R :=
match v with
| Some r => if Req_dec_T r 0 then d else r
| None => d
end.

(** [a / b]: a real number unless the divisor is zero. *)
Definition js_div (a b : R) : option R :=
  if Req_dec_T b 0 then None else Some (a / b).

(** [Math.hypot(a, b)], as a real number.  On doubles [Math.hypot(a, b)] and
    [Math.sqrt(a * a + b * b)] may differ in the last place, so no property
    below decides a comparison between the two at equality. *)
Definition hypot (a b : R) : R := sqrt (a * a + b * b).

(** [Math.round(v)]: the nearest integer, halves rounded up. *)
Definition round (v : R) : R := IZR (Int_part (v + / 2)).

(** [Math.atan2(dy, dx)], the angle of the vector [(dx, dy)] in (-PI, PI]. *)
Definition atan2 (dy dx : R) : R :=
  if Rlt_dec 0 dx then atan (dy / dx)
  else if Rlt_dec dx 0 then
    (if Rle_dec 0 dy then atan (dy / dx) + PI else atan (dy / dx) - PI)
  else if Rlt_dec 0 dy then PI / 2
  else if Rlt_dec dy 0 then - (PI / 2)
  else 0.

(** [array.slice(0, end)] for an integer [end]: a negative [end] counts from
    the end of the array, and the result never runs past either end. *)
Definition slice0 {A : Type} (l : list A) (e : Z) : list A :=
  let len := Z.of_nat (length l) in
  let k := if (e <? 0)%Z then Z.max (len + e) 0 else Z.min e len in
  firstn (Z.to_nat k) l.

(** [array[i]] for an integer [i]: [undefined] outside the array. *)
Definition index {A : Type} (l : list A) (i : Z) : option A :=
  if (i <? 0)%Z then None else nth_error l (Z.to_nat i).

(** [n.toString()] for an integer [n]. *)
Definition toString (n : Z) : string := NilZero.string_of_int (Z.to_int n).

(** Truthiness of a [string | null]: [null] and the empty string are falsy. *)
Definition truthy (v : option string) : bool :=
  match v with
  | Some s => negb (String.eqb s EmptyString)
  | None => false
  end.

(** [id === selected] for a string and a [string | null]. *)
Definition same_id (id : string) (selected : option string) : bool :=
  match selected with
  | Some s => String.eqb id s
  | None => false
  end.

End JS.

(** ** The data model ([src/types/Shapes.ts]) *)

Inductive ShapeType : Type :=
  | rectangle | circle | line | select | arrow | pen | text.

Definition ShapeType_eqb (a b : ShapeType) : bool :=
  match a, b with
  | rectangle, rectangle | circle, circle | line, line | select, select
  | arrow, arrow | pen, pen | text, text => true
  | _, _ => false
  end.

Module Point.
Record t : Type := mk { x : R; y : R }.
End Point.

Module Shape.
Record t : Type := mk {
  id : string;
  type : ShapeType;
  x : R;
  y : R;
  width : option R;
  height : option R;
  radius : option R;
  x2 : option R;
  y2 : option R;
  path : option (list Point.t)
}.

(** [{ ...shape, x: nx, y: ny }] *)
Definition with_xy (nx ny : R) (s : t) : t :=
  mk (id s) (type s) nx ny (width s) (height s) (radius s) (x2 s) (y2 s) (path s).
(** [shape.width = w; shape.height = h] on a copy *)
Definition with_size (w h : R) (s : t) : t :=
  mk (id s) (type s) (x s) (y s) (Some w) (Some h) (radius s) (x2 s) (y2 s) (path s).
Definition with_radius (r : R) (s : t) : t :=
  mk (id s) (type s) (x s) (y s) (width s) (height s) (Some r) (x2 s) (y2 s) (path s).
Definition with_end (ex ey : R) (s : t) : t :=
  mk (id s) (type s) (x s) (y s) (width s) (height s) (radius s) (Some ex) (Some ey) (path s).
Definition with_path (p : list Point.t) (s : t) : t :=
  mk (id s) (type s) (x s) (y s) (width s) (height s) (radius s) (x2 s) (y2 s) (Some p).

(** The object literal of a new shape: only [id], [type], [x], [y] (and
    [path] for a pen stroke) are present. *)
Definition fresh (i : string) (ty : ShapeType) (px py : R)
    (p : option (list Point.t)) : t :=
  mk i ty px py None None None None None p.
End Shape.

Definition Scene : Type := list Shape.t.

(** ** The component state: one field per [useState] *)

Record State : Type := mkState {
  shapes : Scene;
  isDrawing : bool;
  startX : R;
  startY : R;
  currentShape : option Shape.t;
  selectedShapeId : option string;
  offset : Point.t;
  isShiftPressed : bool;
  penPath : list Point.t;
  history : list Scene;
  historyIndex : Z;
  (* the two below exist in the touch-enabled variant only *)
  isMobile : bool;
  lastTouchTime : Z
}.

Definition initialState : State :=
  mkState [] false 0%R 0%R None None (Point.mk 0%R 0%R) false [] [[]] 0%Z false 0%Z.

Definition setShapes (v : Scene) (q : State) : State :=
  mkState v (isDrawing q) (startX q) (startY q) (currentShape q)
    (selectedShapeId q) (offset q) (isShiftPressed q) (penPath q) (history q)
    (historyIndex q) (isMobile q) (lastTouchTime q).
Definition setIsDrawing (v : bool) (q : State) : State :=
  mkState (shapes q) v (startX q) (startY q) (currentShape q)
    (selectedShapeId q) (offset q) (isShiftPressed q) (penPath q) (history q)
    (historyIndex q) (isMobile q) (lastTouchTime q).
Definition setStartX (v : R) (q : State) : State :=
  mkState (shapes q) (isDrawing q) v (startY q) (currentShape q)
    (selectedShapeId q) (offset q) (isShiftPressed q) (penPath q) (history q)
    (historyIndex q) (isMobile q) (lastTouchTime q).
Definition setStartY (v : R) (q : State) : State :=
  mkState (shapes q) (isDrawing q) (startX q) v (currentShape q)
    (selectedShapeId q) (offset q) (isShiftPressed q) (penPath q) (history q)
    (historyIndex q) (isMobile q) (lastTouchTime q).
Definition setCurrentShape (v : option Shape.t) (q : State) : State :=
  mkState (shapes q) (isDrawing q) (startX q) (startY q) v
    (selectedShapeId q) (offset q) (isShiftPressed q) (penPath q) (history q)
    (historyIndex q) (isMobile q) (lastTouchTime q).
Definition setSelectedShapeId (v : option string) (q : State) : State :=
  mkState (shapes q) (isDrawing q) (startX q) (startY q) (currentShape q)
    v (offset q) (isShiftPressed q) (penPath q) (history q)
    (historyIndex q) (isMobile q) (lastTouchTime q).
Definition setOffset (v : Point.t) (q : State) : State :=
  mkState (shapes q) (isDrawing q) (startX q) (startY q) (currentShape q)
    (selectedShapeId q) v (isShiftPressed q) (penPath q) (history q)
    (historyIndex q) (isMobile q) (lastTouchTime q).
Definition setIsShiftPressed (v : bool) (q : State) : State :=
  mkState (shapes q) (isDrawing q) (startX q) (startY q) (currentShape q)
    (selectedShapeId q) (offset q) v (penPath q) (history q)
    (historyIndex q) (isMobile q) (lastTouchTime q).
Definition setPenPath (v : list Point.t) (q : State) : State :=
  mkState (shapes q) (isDrawing q) (startX q) (startY q) (currentShape q)
    (selectedShapeId q) (offset q) (isShiftPressed q) v (history q)
    (historyIndex q) (isMobile q) (lastTouchTime q).
Definition setHistory (v : list Scene) (q : State) : State :=
  mkState (shapes q) (isDrawing q) (startX q) (startY q) (currentShape q)
    (selectedShapeId q) (offset q) (isShiftPressed q) (penPath q) v
    (historyIndex q) (isMobile q) (lastTouchTime q).
Definition setHistoryIndex (v : Z) (q : State) : State :=
  mkState (shapes q) (isDrawing q) (startX q) (startY q) (currentShape q)
    (selectedShapeId q) (offset q) (isShiftPressed q) (penPath q) (history q)
    v (isMobile q) (lastTouchTime q).
Definition setIsMobile (v : bool) (q : State) : State :=
  mkState (shapes q) (isDrawing q) (startX q) (startY q) (currentShape q)
    (selectedShapeId q) (offset q) (isShiftPressed q) (penPath q) (history q)
    (historyIndex q) v (lastTouchTime q).
Definition setLastTouchTime (v : Z) (q : State) : State :=
  mkState (shapes q) (isDrawing q) (startX q) (startY q) (currentShape q)
    (selectedShapeId q) (offset q) (isShiftPressed q) (penPath q) (history q)
    (historyIndex q) (isMobile q) v.

(** ** Handler outcomes *)

Inductive outcome : Type :=
  | Done (q : State)    (* the handler returned *)
  | Threw (q : State).  (* the handler threw; [q] holds the updates queued before *)

Definition state_of (o : outcome) : State :=
  match o with Done q | Threw q => q end.

Definition andThen (o : outcome) (k : State -> outcome) : outcome :=
  match o with
  | Done q => k q
  | Threw q => Threw q
  end.

(** ** The history manager (identical in both variants) *)

Local Open Scope Z_scope.

(** [saveToHistory(newShapes)] *)
Definition saveToHistory (s : State) (newShapes : Scene) (q : State) : State :=
  let newHistory := JS.slice0 (history s) (historyIndex s + 1) ++ [newShapes] in
  setHistoryIndex (Z.of_nat (length newHistory) - 1) (setHistory newHistory q).

(** [undo()]: [[...history[newIndex]]] throws a TypeError when the entry is
    [undefined], after the index update has been queued. *)
Definition undo (s : State) (q : State) : outcome :=
  if historyIndex s >? 0 then
    let newIndex := historyIndex s - 1 in
    let q1 := setHistoryIndex newIndex q in
    match JS.index (history s) newIndex with
    | Some scene => Done (setSelectedShapeId None (setShapes scene q1))
    | None => Threw q1
    end
  else Done q.

(** [redo()] *)
Definition redo (s : State) (q : State) : outcome :=
  if historyIndex s <? Z.of_nat (length (history s)) - 1 then
    let newIndex := historyIndex s + 1 in
    let q1 := setHistoryIndex newIndex q in
    match JS.index (history s) newIndex with
    | Some scene => Done (setSelectedShapeId None (setShapes scene q1))
    | None => Threw q1
    end
  else Done q.

Definition canUndo (s : State) : bool := historyIndex s >? 0.
Definition canRedo (s : State) : bool :=
  historyIndex s <? Z.of_nat (length (history s)) - 1.

(** ** Geometry (identical in both variants) *)

Local Open Scope R_scope.

(** [pointToLineDistance(x, y, x1, y1, x2, y2)].  The result is [None] only if
    a division by zero was evaluated. *)
Definition pointToLineDistance (x y x1 y1 x2 y2 : R) : option R :=
  let A := x - x1 in
  let B := y - y1 in
  let C := x2 - x1 in
  let D := y2 - y1 in
  let dot := A * C + B * D in
  let len_sq := C * C + D * D in
  let param := if JS.neqb len_sq 0 then JS.js_div dot len_sq else Some (-1) in
  match param with
  | None => None
  | Some param =>
      let xx := if JS.ltb param 0 then x1
                else if JS.gtb param 1 then x2 else x1 + param * C in
      let yy := if JS.ltb param 0 then y1
                else if JS.gtb param 1 then y2 else y1 + param * D in
      let dx := x - xx in
      let dy := y - yy in
      Some (sqrt (dx * dx + dy * dy))
  end.

(** [distance < tolerance] for a distance that may be undefined. *)
Definition closerThan (tolerance : R) (distance : option R) : bool :=
  match distance with
  | Some d => JS.ltb d tolerance
  | None => false
  end.

(** The loop over the consecutive pairs of a pen path:
    [for (i = 0; i < path.length - 1; i++) if (dist(path[i], path[i+1]) < tolerance) return true]. *)
Fixpoint nearPath (tolerance x y : R) (path : list Point.t) : bool :=
  match path with
  | [] => false
  | p :: rest =>
      match rest with
      | [] => false
      | q :: _ =>
          if closerThan tolerance
               (pointToLineDistance x y (Point.x p) (Point.y p) (Point.x q) (Point.y q))
          then true
          else nearPath tolerance x y rest
      end
  end.

(** ** Parts of the handlers that both variants share verbatim *)

(** The drag branch of the move handler:
    [setShapes(prev => prev.map(shape => shape.id === selectedShapeId
       ? { ...shape, x: x - offset.x, y: y - offset.y } : shape))]. *)
Definition moveSelected (x y : R) (s : State) (q : State) : State :=
  setShapes
    (map (fun shape =>
            if JS.same_id (Shape.id shape) (selectedShapeId s)
            then Shape.with_xy (x - Point.x (offset s)) (y - Point.y (offset s)) shape
            else shape)
         (shapes q))
    q.

(** The drawing branch of the move handler, the [switch (selectedTool)] on a
    copy of [currentShape].  The variants differ only in the conditions of the
    two constraint tests, given here as [squareIt] (of the sizes) and
    [snapIt] (of the deltas). *)
Definition updateDrawing (squareIt : R -> R -> bool) (snapIt : R -> R -> bool)
    (selectedTool : ShapeType) (x y : R) (s : State) (cur : Shape.t) (q : State) : State :=
  match selectedTool with
  | rectangle =>
      let width := x - startX s in
      let height := y - startY s in
      let size := Rmax (Rabs width) (Rabs height) in
      let width' := if squareIt width height
                    then (if JS.ltb width 0 then - size else size) else width in
      let height' := if squareIt width height
                     then (if JS.ltb height 0 then - size else size) else height in
      setCurrentShape (Some (Shape.with_size width' height' cur)) q
  | circle =>
      let radius := JS.hypot (x - startX s) (y - startY s) in
      setCurrentShape (Some (Shape.with_radius radius cur)) q
  | line =>
      let dx := x - startX s in
      let dy := y - startY s in
      let angle := JS.atan2 dy dx in
      let snapAngle := JS.round (angle / (PI / 4)) * (PI / 4) in
      let distance := JS.hypot dx dy in
      let x2 := if snapIt dx dy then startX s + cos snapAngle * distance else x in
      let y2 := if snapIt dx dy then startY s + sin snapAngle * distance else y in
      setCurrentShape (Some (Shape.with_end x2 y2 cur)) q
  | arrow =>
      setCurrentShape (Some (Shape.with_end x y cur)) q
  | pen =>
      let newPath := penPath s ++ [Point.mk x y] in
      setCurrentShape (Some (Shape.with_path newPath cur)) (setPenPath newPath q)
  | select | text =>
      setCurrentShape (Some cur) q
  end.

(** The body of the pointer-up handler. *)
Definition finishGesture (selectedTool : ShapeType) (s : State) (q : State) : State :=
  let q' :=
    match isDrawing s, currentShape s with
    | true, Some cur =>
        let newShapes := shapes s ++ [cur] in
        setPenPath [] (setIsDrawing false (setCurrentShape None
          (saveToHistory s newShapes (setShapes newShapes q))))
    | _, _ =>
        if ShapeType_eqb selectedTool select && JS.truthy (selectedShapeId s)
        then saveToHistory s (shapes s) q
        else q
    end in
  setSelectedShapeId None q'.

(** The shape literal built on pointer-down with a drawing tool. *)
Definition startDrawing (selectedTool : ShapeType) (now : Z) (x y : R) (q : State) : State :=
  match selectedTool with
  | pen =>
      setCurrentShape
        (Some (Shape.fresh (JS.toString now) pen x y (Some [Point.mk x y])))
        (setPenPath [Point.mk x y] (setIsDrawing true q))
  | _ =>
      setCurrentShape
        (Some (Shape.fresh (JS.toString now) selectedTool x y None))
        (setIsDrawing true q)
  end.

(** The keyboard handlers. *)
Record KeyboardEvent : Type := mkKey {
  key : string;
  ctrlKey : bool;
  metaKey : bool;
  shiftKey : bool
}.

Definition handleKeyDown (e : KeyboardEvent) (s : State) : outcome :=
  let q0 := if String.eqb (key e) "Shift" then setIsShiftPressed true s else s in
  andThen
    (if ctrlKey e || metaKey e then
       if String.eqb (key e) "z" && negb (shiftKey e) then undo s q0
       else if String.eqb (key e) "y" || (String.eqb (key e) "z" && shiftKey e)
            then redo s q0
            else Done q0
     else Done q0)
    (fun q1 =>
       if String.eqb (key e) "Delete" || String.eqb (key e) "Backspace" then
         if JS.truthy (selectedShapeId s) then
           let newShapes :=
             filter (fun shape => negb (JS.same_id (Shape.id shape) (selectedShapeId s)))
                    (shapes s) in
           Done (setSelectedShapeId None
                   (saveToHistory s newShapes (setShapes newShapes q1)))
         else Done q1
       else Done q1).

Definition handleKeyUp (e : KeyboardEvent) (s : State) : State :=
  if String.eqb (key e) "Shift" then setIsShiftPressed false s else s.

(** ** Rendering (the draw list sent to the 2D context) *)

(** The calls made on the [CanvasRenderingContext2D], in order. *)
Inductive Cmd : Type :=
  | save
  | restore
  | fillStyle (colour : string)
  | fillRect (x y w h : R)
  | strokeStyle (colour : string)
  | lineWidth (w : R)
  | lineCap (style : string)
  | lineJoin (style : string)
  | setLineDash (segments : list R)
  | beginPath
  | rect (x y w h : R)
  | arc (x y r startAngle endAngle : R)
  | moveTo (x y : R)
  | lineTo (x y : R)
  | stroke.

(** The [switch (shape.type)] of [drawShape]; [headLength] is the only thing
    in which the variants differ.  (The browser rejects an [arc] with a
    negative radius; the radius of a drawn circle is a distance.) *)
Definition tracePath (headLength : R) (shape : Shape.t) : list Cmd :=
  match Shape.type shape with
  | rectangle =>
      [rect (Shape.x shape) (Shape.y shape)
            (JS.orZero (Shape.width shape)) (JS.orZero (Shape.height shape))]
  | circle =>
      [arc (Shape.x shape) (Shape.y shape) (JS.orZero (Shape.radius shape)) 0 (2 * PI)]
  | line =>
      [moveTo (Shape.x shape) (Shape.y shape);
       lineTo (JS.orElse (Shape.x2 shape) (Shape.x shape))
              (JS.orElse (Shape.y2 shape) (Shape.y shape))]
  | arrow =>
      let x2 := JS.orElse (Shape.x2 shape) (Shape.x shape) in
      let y2 := JS.orElse (Shape.y2 shape) (Shape.y shape) in
      let angle := JS.atan2 (y2 - Shape.y shape) (x2 - Shape.x shape) in
      [moveTo (Shape.x shape) (Shape.y shape);
       lineTo x2 y2;
       moveTo x2 y2;
       lineTo (x2 - headLength * cos (angle - PI / 6))
              (y2 - headLength * sin (angle - PI / 6));
       moveTo x2 y2;
       lineTo (x2 - headLength * cos (angle + PI / 6))
              (y2 - headLength * sin (angle + PI / 6))]
  | pen =>
      match Shape.path shape with
      | Some (p0 :: p1 :: rest) =>
          moveTo (Point.x p0) (Point.y p0)
          :: map (fun p => lineTo (Point.x p) (Point.y p)) (p1 :: rest)
      | _ => []
      end
  | select | text => []
  end.

(** [drawShape(context, shape, isSelected)] for a given line width and head
    length. *)
Definition drawShapeWith (width headLength : R) (isSelected : bool)
    (shape : Shape.t) : list Cmd :=
  [save;
   strokeStyle (if isSelected then "#4285f4" else "#1a1a1a");
   lineWidth width;
   lineCap "round";
   lineJoin "round"]
  ++ (if isSelected then [setLineDash [5; 5]] else [])
  ++ [beginPath]
  ++ tracePath headLength shape
  ++ [stroke; restore].

(** One of the two loops of [drawGrid]:
    [for (let v = from; v <= limit; v += gridSize) emit(v)].  The canvas sizes
    are integers; [fuel] bounds the number of iterations. *)
Fixpoint gridLoop (fuel : nat) (emit : Z -> list Cmd) (gridSize limit from : Z)
    : list Cmd :=
  match fuel with
  | O => []
  | S fuel' =>
      if (from <=? limit)%Z
      then emit from ++ gridLoop fuel' emit gridSize limit (from + gridSize)%Z
      else []
  end.

(** [drawGrid(context, width, height)] for a given grid size. *)
Definition drawGridWith (fuel : nat) (gridSize width height : Z) : list Cmd :=
  [strokeStyle "#e5e5e5"; lineWidth (5 / 10)]
  ++ gridLoop fuel
       (fun x => [beginPath; moveTo (IZR x) 0; lineTo (IZR x) (IZR height); stroke])
       gridSize width 0%Z
  ++ gridLoop fuel
       (fun y => [beginPath; moveTo 0 (IZR y); lineTo (IZR width) (IZR y); stroke])
       gridSize height 0%Z.

(** ** The mouse-only canvas ([src/components/Canvas.tsx]) *)

Module Desktop.

Definition isInsideShape (x y : R) (shape : Shape.t) : bool :=
  match Shape.type shape with
  | rectangle =>
      let width := JS.orZero (Shape.width shape) in
      let height := JS.orZero (Shape.height shape) in
      let minX := if JS.ltb width 0 then Shape.x shape + width else Shape.x shape in
      let maxX := if JS.ltb width 0 then Shape.x shape else Shape.x shape + width in
      let minY := if JS.ltb height 0 then Shape.y shape + height else Shape.y shape in
      let maxY := if JS.ltb height 0 then Shape.y shape else Shape.y shape + height in
      JS.geb x minX && JS.leb x maxX && JS.geb y minY && JS.leb y maxY
  | circle =>
      let dx := x - Shape.x shape in
      let dy := y - Shape.y shape in
      JS.leb (sqrt (dx * dx + dy * dy)) (JS.orZero (Shape.radius shape))
  | line | arrow =>
      let distance :=
        pointToLineDistance x y (Shape.x shape) (Shape.y shape)
          (JS.orZero (Shape.x2 shape)) (JS.orZero (Shape.y2 shape)) in
      closerThan 8 distance
  | pen =>
      match Shape.path shape with
      | None => false
      | Some path => nearPath 8 x y path
      end
  | select | text => false
  end.

(** [for (i = shapes.length - 1; i >= 0; i--) if (isInsideShape(x, y, shapes[i])) ...] *)
Definition topmost (x y : R) (scene : Scene) : option Shape.t :=
  find (isInsideShape x y) (rev scene).

Definition handleMouseDown (selectedTool : ShapeType) (now : Z) (x y : R)
    (s : State) : State :=
  let q := setStartY y (setStartX x s) in
  match selectedTool with
  | select =>
      match topmost x y (shapes s) with
      | Some shape =>
          setOffset (Point.mk (x - Shape.x shape) (y - Shape.y shape))
            (setSelectedShapeId (Some (Shape.id shape)) q)
      | None => setSelectedShapeId None q
      end
  | _ => startDrawing selectedTool now x y q
  end.

Definition handleMouseMove (selectedTool : ShapeType) (x y : R) (s : State) : State :=
  if ShapeType_eqb selectedTool select && JS.truthy (selectedShapeId s)
     && negb (isDrawing s)
  then moveSelected x y s s
  else
    match isDrawing s, currentShape s with
    | true, Some cur =>
        updateDrawing (fun _ _ => isShiftPressed s) (fun _ _ => isShiftPressed s)
          selectedTool x y s cur s
    | _, _ => s
    end.

Definition handleMouseUp (selectedTool : ShapeType) (s : State) : State :=
  finishGesture selectedTool s s.

(** [onMouseLeave={() => { if (isDrawing) handleMouseUp(); }}] *)
Definition onMouseLeave (selectedTool : ShapeType) (s : State) : State :=
  if isDrawing s then handleMouseUp selectedTool s else s.

(** What the host delivers: every event comes with the tool selected in the
    toolbar at that time (the [selectedTool] prop). *)
Inductive Event : Type :=
  | MouseDown (selectedTool : ShapeType) (now : Z) (x y : R)
  | MouseMove (selectedTool : ShapeType) (x y : R)
  | MouseUp (selectedTool : ShapeType)
  | MouseLeave (selectedTool : ShapeType)
  | KeyDown (e : KeyboardEvent)
  | KeyUp (e : KeyboardEvent).

Definition step (ev : Event) (s : State) : outcome :=
  match ev with
  | MouseDown tool now x y => Done (handleMouseDown tool now x y s)
  | MouseMove tool x y => Done (handleMouseMove tool x y s)
  | MouseUp tool => Done (handleMouseUp tool s)
  | MouseLeave tool => Done (onMouseLeave tool s)
  | KeyDown e => handleKeyDown e s
  | KeyUp e => Done (handleKeyUp e s)
  end.

(** The component after a sequence of events; an exception in a handler is
    reported and the component goes on with the updates queued so far. *)
Fixpoint run (evs : list Event) (s : State) : State :=
  match evs with
  | [] => s
  | ev :: rest => run rest (state_of (step ev s))
  end.

(** [getCursorStyle(tool, x, y)] *)
Definition getCursorStyle (tool : ShapeType) (x y : R) (s : State) : string :=
match tool with
| select =>
    if existsb (isInsideShape x y) (rev (shapes s)) then "move" else "default"
| pen => "crosshair"
| text => "text"
| _ => "crosshair"
end.

Definition drawShape (isSelected : bool) (shape : Shape.t) : list Cmd :=
drawShapeWith (if isSelected then 2 else 15 / 10) 15 isSelected shape.

(** [shapes.forEach(shape => drawShape(context, shape, shape.id === selectedShapeId))] *)
Definition drawAllShapes (s : State) : list Cmd :=
flat_map (fun shape => drawShape (JS.same_id (Shape.id shape) (selectedShapeId s)) shape)
         (shapes s).

Definition drawGrid (fuel : nat) (width height : Z) : list Cmd :=
drawGridWith fuel 20 width height.

(** [redrawCanvas()] on a canvas of the given size. *)
Definition redrawCanvas (fuel : nat) (width height : Z) (s : State) : list Cmd :=
[fillStyle "#fafafa"; fillRect 0 0 (IZR width) (IZR height)]
++ drawGrid fuel width height
++ drawAllShapes s
++ match currentShape s with
   | Some cur => drawShape false cur
   | None => []
   end.

End Desktop.

(** ** The touch-enabled canvas (the variant with [handlePointerDown],
       [handlePointerMove], [handlePointerUp]) *)

Module Touch.

(** The argument of a pointer handler.  [(x, y)] is what [getPointerPos]
    computes from the event. *)
Inductive PointerEvent : Type :=
  | OfMouse (x y : R)   (* a [React.MouseEvent] *)
  | OfTouch (x y : R)   (* a [React.TouchEvent]: ['touches' in e] holds *)
  | Bare.               (* the literal [{}] cast to an event type *)

Definition hasTouches (e : PointerEvent) : bool :=
  match e with OfTouch _ _ => true | _ => false end.

Definition isInsideShape (mobile : bool) (x y : R) (shape : Shape.t) : bool :=
  let tolerance := if mobile then 15 else 8 in
  match Shape.type shape with
  | rectangle =>
      let width := JS.orZero (Shape.width shape) in
      let height := JS.orZero (Shape.height shape) in
      let minX := if JS.ltb width 0 then Shape.x shape + width else Shape.x shape in
      let maxX := if JS.ltb width 0 then Shape.x shape else Shape.x shape + width in
      let minY := if JS.ltb height 0 then Shape.y shape + height else Shape.y shape in
      let maxY := if JS.ltb height 0 then Shape.y shape else Shape.y shape + height in
      JS.geb x (minX - tolerance) && JS.leb x (maxX + tolerance)
      && JS.geb y (minY - tolerance) && JS.leb y (maxY + tolerance)
  | circle =>
      let dx := x - Shape.x shape in
      let dy := y - Shape.y shape in
      JS.leb (sqrt (dx * dx + dy * dy)) (JS.orZero (Shape.radius shape) + tolerance)
  | line | arrow =>
      let distance :=
        pointToLineDistance x y (Shape.x shape) (Shape.y shape)
          (JS.orZero (Shape.x2 shape)) (JS.orZero (Shape.y2 shape)) in
      closerThan tolerance distance
  | pen =>
      match Shape.path shape with
      | None => false
      | Some path => nearPath tolerance x y path
      end
  | select | text => false
  end.

Definition handleShapeSelection (x y : R) (s : State) (q : State) : State :=
  match find (isInsideShape (isMobile s) x y) (rev (shapes s)) with
  | Some shape =>
      setOffset (Point.mk (x - Shape.x shape) (y - Shape.y shape))
        (setSelectedShapeId (Some (Shape.id shape)) q)
  | None => setSelectedShapeId None q
  end.

(** [now] is the value of [Date.now()] during the handler. *)
Definition handlePointerDown (selectedTool : ShapeType) (now : Z)
    (e : PointerEvent) (s : State) : outcome :=
  match e with
  | Bare => Threw s   (* [e.preventDefault] is not a function *)
  | OfMouse x y | OfTouch x y =>
      let q := setStartY y (setStartX x s) in
      let tapLength := (now - lastTouchTime s)%Z in
      if isMobile s && hasTouches e
         && ((tapLength <? 500)%Z && (tapLength >? 0)%Z)
      then Done (handleShapeSelection x y s q)
      else
        let q1 := if isMobile s && hasTouches e then setLastTouchTime now q else q in
        match selectedTool with
        | select => Done (handleShapeSelection x y s q1)
        | _ => Done (startDrawing selectedTool now x y q1)
        end
  end.

Definition shouldSnapToAngle (dx dy : R) : bool :=
  let angle := JS.atan2 dy dx in
  let snapAngle := JS.round (angle / (PI / 4)) * (PI / 4) in
  let actualAngle := JS.atan2 dy dx in
  JS.ltb (Rabs (actualAngle - snapAngle)) (2 / 10).

Definition handlePointerMove (selectedTool : ShapeType) (e : PointerEvent)
    (s : State) : outcome :=
  match e with
  | Bare => Threw s
  | OfMouse x y | OfTouch x y =>
      if ShapeType_eqb selectedTool select && JS.truthy (selectedShapeId s)
         && negb (isDrawing s)
      then Done (moveSelected x y s s)
      else
        match isDrawing s, currentShape s with
        | true, Some cur =>
            Done (updateDrawing
                    (fun width height =>
                       isShiftPressed s
                       || (isMobile s && JS.ltb (Rabs (width - height)) 50))
                    (fun dx dy =>
                       isShiftPressed s || (isMobile s && shouldSnapToAngle dx dy))
                    selectedTool x y s cur s)
        | _, _ => Done s
        end
  end.

Definition handlePointerUp (selectedTool : ShapeType) (e : PointerEvent)
    (s : State) : outcome :=
  match e with
  | Bare => Threw s
  | OfMouse _ _ | OfTouch _ _ => Done (finishGesture selectedTool s s)
  end.

(** [onMouseLeave={() => { if (isDrawing) handlePointerUp({} as React.MouseEvent); }}] *)
Definition onMouseLeave (selectedTool : ShapeType) (s : State) : outcome :=
  if isDrawing s then handlePointerUp selectedTool Bare s else Done s.

(** [onTouchCancel={() => { if (isDrawing) handlePointerUp({} as React.TouchEvent); }}] *)
Definition onTouchCancel (selectedTool : ShapeType) (s : State) : outcome :=
  if isDrawing s then handlePointerUp selectedTool Bare s else Done s.

Inductive Event : Type :=
  | PointerDown (selectedTool : ShapeType) (now : Z) (touch : bool) (x y : R)
  | PointerMove (selectedTool : ShapeType) (touch : bool) (x y : R)
  | PointerUp (selectedTool : ShapeType) (touch : bool) (x y : R)
  | MouseLeave (selectedTool : ShapeType)
  | TouchCancel (selectedTool : ShapeType)
  | KeyDown (e : KeyboardEvent)
  | KeyUp (e : KeyboardEvent)
  | CheckMobile (mobile : bool).   (* the result of the device test on mount or resize *)

Definition eventAt (touch : bool) (x y : R) : PointerEvent :=
  if touch then OfTouch x y else OfMouse x y.

(** The key listeners are attached only when the device is not mobile. *)
Definition step (ev : Event) (s : State) : outcome :=
  match ev with
  | PointerDown tool now touch x y => handlePointerDown tool now (eventAt touch x y) s
  | PointerMove tool touch x y => handlePointerMove tool (eventAt touch x y) s
  | PointerUp tool touch x y => handlePointerUp tool (eventAt touch x y) s
  | MouseLeave tool => onMouseLeave tool s
  | TouchCancel tool => onTouchCancel tool s
  | KeyDown e => if isMobile s then Done s else handleKeyDown e s
  | KeyUp e => if isMobile s then Done s else Done (handleKeyUp e s)
  | CheckMobile mobile => Done (setIsMobile mobile s)
  end.

Fixpoint run (evs : list Event) (s : State) : State :=
  match evs with
  | [] => s
  | ev :: rest => run rest (state_of (step ev s))
  end.

(** [getCursorStyle(tool, x, y)] *)
Definition getCursorStyle (tool : ShapeType) (x y : R) (s : State) : string :=
if isMobile s then "default"
else
  match tool with
  | select =>
      if existsb (isInsideShape (isMobile s) x y) (rev (shapes s))
      then "move" else "default"
  | pen => "crosshair"
  | text => "text"
  | _ => "crosshair"
  end.

Definition drawShape (mobile : bool) (isSelected : bool) (shape : Shape.t) : list Cmd :=
drawShapeWith
  (if mobile then (if isSelected then 3 else 2) else (if isSelected then 2 else 15 / 10))
  (if mobile then 20 else 15) isSelected shape.

Definition drawAllShapes (s : State) : list Cmd :=
flat_map (fun shape =>
            drawShape (isMobile s) (JS.same_id (Shape.id shape) (selectedShapeId s)) shape)
         (shapes s).

Definition drawGrid (fuel : nat) (width height : Z) (s : State) : list Cmd :=
drawGridWith fuel (if isMobile s then 15 else 20) width height.

Definition redrawCanvas (fuel : nat) (width height : Z) (s : State) : list Cmd :=
[fillStyle "#fafafa"; fillRect 0 0 (IZR width) (IZR height)]
++ drawGrid fuel width height s
++ drawAllShapes s
++ match currentShape s with
   | Some cur => drawShape (isMobile s) false cur
   | None => []
   end.

End Touch.

(** * Vocabulary of the properties *)

(** ** Calls of the history manager and its invariant *)

Local Open Scope Z_scope.

(** The calls of the history manager, made on the rendered state. *)
Inductive HistoryCall : Type :=
  | Commit (scene : Scene)
  | Undo
  | Redo.

Definition call (c : HistoryCall) (s : State) : outcome :=
  match c with
  | Commit scene => Done (saveToHistory s scene s)
  | Undo => undo s s
  | Redo => redo s s
  end.

Fixpoint calls (cs : list HistoryCall) (s : State) : State :=
  match cs with
  | [] => s
  | c :: rest => calls rest (state_of (call c s))
  end.

(** [0 <= index < length(history)] and [history[0]] is the empty scene. *)
Definition history_ok (s : State) : Prop :=
  0 <= historyIndex s < Z.of_nat (length (history s))
  /\ JS.index (history s) 0 = Some [].

(** ** Geometry *)

Local Open Scope R_scope.

(** The Euclidean distance between two points. *)
Definition distance (ax ay bx by_ : R) : R :=
  sqrt (Rsqr (ax - bx) + Rsqr (ay - by_)).

(** The point [(x, y)] lies in the rectangle spanned by the anchor of [shape]
    and the opposite corner, grown by [tolerance] on each of the four sides. *)
Definition inExpandedBox (tolerance x y : R) (shape : Shape.t) : Prop :=
  let w := JS.orZero (Shape.width shape) in
  let h := JS.orZero (Shape.height shape) in
  Rmin (Shape.x shape) (Shape.x shape + w) - tolerance <= x
    <= Rmax (Shape.x shape) (Shape.x shape + w) + tolerance
  /\ Rmin (Shape.y shape) (Shape.y shape + h) - tolerance <= y
    <= Rmax (Shape.y shape) (Shape.y shape + h) + tolerance.

(** The projection parameter clamped to the segment. *)
Definition clamp01 (t : R) : R := Rmax 0 (Rmin 1 t).

Ltac split_minmax :=
  unfold Rmin, Rmax in *;
  repeat match goal with
         | |- context [Rle_dec ?a ?b] => destruct (Rle_dec a b)
         | H : context [Rle_dec ?a ?b] |- _ => destruct (Rle_dec a b)
         end.

(** ** The states of a gesture *)

(** Nothing is in progress. *)
Definition Idle (s : State) : Prop :=
  isDrawing s = false /\ currentShape s = None /\ selectedShapeId s = None.

(** The shape [cur] is being drawn. *)
Definition Drawing (s : State) (cur : Shape.t) : Prop :=
  isDrawing s = true /\ currentShape s = Some cur.

(** A shape is selected and follows the pointer of the select tool. *)
Definition Dragging (s : State) : Prop :=
  isDrawing s = false /\ JS.truthy (selectedShapeId s) = true.

(** ** Effects on shapes *)

(** [new] is [old] with its anchor put at [(nx, ny)] and nothing else changed. *)
Definition anchor_moved (nx ny : R) (old new : Shape.t) : Prop :=
  Shape.x new = nx /\ Shape.y new = ny
  /\ Shape.id new = Shape.id old
  /\ Shape.type new = Shape.type old
  /\ Shape.width new = Shape.width old
  /\ Shape.height new = Shape.height old
  /\ Shape.radius new = Shape.radius old
  /\ Shape.x2 new = Shape.x2 old
  /\ Shape.y2 new = Shape.y2 old
  /\ Shape.path new = Shape.path old.

(** The effect of a drag on one shape of the scene. *)
Definition dragged (selected : option string) (nx ny : R) (old new : Shape.t) : Prop :=
  (selected = Some (Shape.id old) -> anchor_moved nx ny old new)
  /\ (selected <> Some (Shape.id old) -> new = old).

(** Every field of the state but [shapes] is the same in [s] and [s']. *)
Definition only_shapes_differ (s s' : State) : Prop :=
  s' = setShapes (shapes s') s.

(** The first point of the path of a pen stroke is its anchor. *)
Definition pen_anchored (shape : Shape.t) : Prop :=
  Shape.type shape = pen ->
  exists rest,
    Shape.path shape = Some (Point.mk (Shape.x shape) (Shape.y shape) :: rest).

(** Pen strokes are anchored everywhere: in the scene, in every snapshot of
    the history and in the shape in progress, whose path is the [penPath]
    being built. *)
Definition pen_inv (s : State) : Prop :=
  Forall pen_anchored (shapes s)
  /\ Forall (Forall pen_anchored) (history s)
  /\ forall cur, currentShape s = Some cur ->
       pen_anchored cur
       /\ (Shape.type cur = pen -> Shape.path cur = Some (penPath s)).

(** The move handler takes its drag branch. *)
Definition is_drag_move (ev : Desktop.Event) (s : State) : bool :=
  match ev with
  | Desktop.MouseMove tool _ _ =>
      ShapeType_eqb tool select && JS.truthy (selectedShapeId s) && negb (isDrawing s)
  | _ => false
  end.

(** ** Concrete shapes and gestures on the mouse-only canvas *)

(** A scene with one rectangle, drawn with the mouse from (0,0) to (50,50),
    and the state of the canvas after that gesture. *)
Definition drawRectangle : list Desktop.Event :=
  [ Desktop.MouseDown rectangle 1 0%R 0%R;
    Desktop.MouseMove rectangle 50%R 50%R;
    Desktop.MouseUp rectangle ].

Definition afterRectangle : State := Desktop.run drawRectangle initialState.

(** The rectangle drawn by [drawRectangle]. *)
Definition box50 : Shape.t :=
  Shape.mk "1" rectangle 0 0 (Some (50 - 0)) (Some (50 - 0)) None None None None.

(** A square whose anchor is its bottom-right corner (negative sizes). *)
Definition square50 : Shape.t :=
  Shape.mk "1" rectangle 50 50 (Some (-50)) (Some (-50)) None None None None.

(** A circle of radius 20 around (100,100). *)
Definition disk20 : Shape.t :=
  Shape.mk "2" circle 100 100 None None (Some 20) None None None.

(** The rectangle has been drawn and then pressed with the select tool: the
    machine is dragging it. *)
Definition pressRectangle : list Desktop.Event :=
  drawRectangle ++ [Desktop.MouseDown select 2 25 25].

Definition dragging : State :=
  mkState [box50] false 25 25 None (Some "1"%string)
          (Point.mk (25 - 0) (25 - 0)) false [] [[]; [box50]] 1 false 0.

(** The rectangle pressed in [dragging] has been moved to (5, 15) and the
    mouse button is still down. *)
Definition movedRectangle : State := Desktop.handleMouseMove select 30 40 dragging.

(** Two rectangles are drawn, the second is undone, and the first is pressed
    with the select tool. *)
Definition pressAfterUndo : list Desktop.Event :=
  drawRectangle
  ++ [ Desktop.MouseDown rectangle 3 100 100;
       Desktop.MouseMove rectangle 150 150;
       Desktop.MouseUp rectangle;
       Desktop.KeyDown (mkKey "z" true false false);
       Desktop.MouseDown select 4 25 25 ].

Definition box150 : Shape.t :=
  Shape.mk "3" rectangle 100 100 (Some (150 - 100)) (Some (150 - 100))
           None None None None.

Definition pressedAfterUndo : State :=
  mkState [box50] false 25 25 None (Some "1"%string)
          (Point.mk (25 - 0) (25 - 0)) false []
          [[]; [box50]; [box50; box150]] 1 false 0.

(** A stroke from (0,0) to (10,0) is drawn with the pen, pressed at its start
    with the select tool, dragged to (5,7) and released. *)
Definition penThenDrag : list Desktop.Event :=
  [ Desktop.MouseDown pen 1 0 0;
    Desktop.MouseMove pen 10 0;
    Desktop.MouseUp pen;
    Desktop.MouseDown select 2 0 0;
    Desktop.MouseMove select 5 7;
    Desktop.MouseUp select ].

Definition penStroke : Shape.t :=
  Shape.mk "1" pen 0 0 None None None None None
           (Some [Point.mk 0 0; Point.mk 10 0]).

(** ** Gestures as event lists, and further vocabulary *)

Ltac split_abs :=
  unfold Rabs in *;
  repeat match goal with
         | |- context [Rcase_abs ?a] => destruct (Rcase_abs a)
         | H : context [Rcase_abs ?a] |- _ => destruct (Rcase_abs a)
         end.

(** The point at parameter [u] of the segment from [(ax, ay)] to [(bx, by)]. *)
Definition along (u ax bx : R) : R := ax + u * (bx - ax).

(** The moves of the pointer through the points [pts] with a given tool. *)
Definition movesThrough (tool : ShapeType) (pts : list Point.t) : list Desktop.Event :=
  map (fun p => Desktop.MouseMove tool (Point.x p) (Point.y p)) pts.

(** A complete drawing gesture: press at [(x, y)], move through [pts], release. *)
Definition drawGesture (tool : ShapeType) (now : Z) (x y : R) (pts : list Point.t)
    : list Desktop.Event :=
  Desktop.MouseDown tool now x y :: movesThrough tool pts ++ [Desktop.MouseUp tool].

(** No event of the list is a pointer-move with the select tool. *)
Definition never_drags (evs : list Desktop.Event) : bool :=
  forallb (fun ev => match ev with
                     | Desktop.MouseMove select _ _ => false
                     | _ => true
                     end) evs.

(** A shape is in progress exactly while [isDrawing] is set, and the pen path
    under construction is empty otherwise. *)
Definition gesture_ok (s : State) : Prop :=
  (isDrawing s = true /\ exists cur, currentShape s = Some cur)
  \/ (isDrawing s = false /\ currentShape s = None /\ penPath s = []).

(** The shapes of [scene] whose id is not [selected], in their order. *)
Definition without (selected : option string) (scene : Scene) : Scene :=
  filter (fun shape => negb (JS.same_id (Shape.id shape) selected)) scene.

(** In [s'] the selection is the topmost shape of the scene of [s] that the
    test [hit] accepts, with the drag offset from the pointer [(x, y)] to its
    anchor, or nothing when no shape is hit; the scene, the history and the
    shape in progress are those of [s]. *)
Definition picks_topmost (hit : Shape.t -> bool) (x y : R) (s s' : State) : Prop :=
  match find hit (rev (shapes s)) with
  | Some sh =>
      (exists below above,
         shapes s = below ++ sh :: above
         /\ hit sh = true
         /\ Forall (fun o => hit o = false) above)
      /\ selectedShapeId s' = Some (Shape.id sh)
      /\ offset s' = Point.mk (x - Shape.x sh) (y - Shape.y sh)
  | None =>
      Forall (fun o => hit o = false) (shapes s)
      /\ selectedShapeId s' = None
      /\ offset s' = offset s
  end
  /\ shapes s' = shapes s /\ history s' = history s
  /\ historyIndex s' = historyIndex s
  /\ currentShape s' = currentShape s /\ isDrawing s' = isDrawing s.

(** The multiples of [gridSize] from 0 up to [limit]. *)
Definition multiples (gridSize limit : Z) : list Z :=
  map (fun k => (Z.of_nat k * gridSize)%Z) (seq 0 (Z.to_nat (limit / gridSize + 1))).

(** The strokes of the grid: a vertical line at [x], a horizontal line at [y]. *)
Definition verticalLine (height x : Z) : list Cmd :=
  [beginPath; moveTo (IZR x) 0; lineTo (IZR x) (IZR height); stroke].

Definition horizontalLine (width y : Z) : list Cmd :=
  [beginPath; moveTo 0 (IZR y); lineTo (IZR width) (IZR y); stroke].

(** A pen stroke with a single point, and a line whose end was never set. *)
Definition dot : Shape.t :=
  Shape.fresh "7" pen 3 4 (Some [Point.mk 3 4]).

Definition untouchedLine : Shape.t := Shape.fresh "8" line 30 40 None.

(** The comparisons and the hit tests stay folded when a gesture is
    evaluated; their values are established by the lemmas about them. *)
Arguments JS.ltb : simpl never.
Arguments JS.leb : simpl never.
Arguments JS.gtb : simpl never.
Arguments JS.geb : simpl never.
Arguments JS.neqb : simpl never.
Arguments JS.js_div : simpl never.
Arguments pointToLineDistance : simpl never.
Arguments Desktop.isInsideShape : simpl never.
Arguments Touch.isInsideShape : simpl never.

(** * Properties *)

(** ** The history manager *)

Local Open Scope Z_scope.

Lemma slice0_firstn {A : Type} (l : list A) (e : Z) :
  0 <= e <= Z.of_nat (length l) -> JS.slice0 l e = firstn (Z.to_nat e) l.
Proof.
  intros He. unfold JS.slice0.
  destruct (Z.ltb_spec e 0) as [Hneg | _]; [lia |].
  now rewrite Z.min_l by lia.
Qed.

Lemma slice0_length {A : Type} (l : list A) (e : Z) :
  0 <= e <= Z.of_nat (length l) -> Z.of_nat (length (JS.slice0 l e)) = e.
Proof.
  intros He. rewrite slice0_firstn by assumption.
  rewrite length_firstn. lia.
Qed.

Lemma index_in_range {A : Type} (l : list A) (i : Z) :
  0 <= i < Z.of_nat (length l) -> exists a, JS.index l i = Some a.
Proof.
  intros Hi. unfold JS.index.
  destruct (Z.ltb_spec i 0) as [Hneg | _]; [lia |].
  destruct (nth_error l (Z.to_nat i)) as [a |] eqn:E; [now exists a |].
  apply nth_error_None in E. lia.
Qed.

Lemma index_app_left {A : Type} (l r : list A) (i : Z) :
  0 <= i < Z.of_nat (length l) -> JS.index (l ++ r) i = JS.index l i.
Proof.
  intros Hi. unfold JS.index.
  destruct (Z.ltb_spec i 0) as [Hneg | _]; [lia |].
  apply nth_error_app1. lia.
Qed.

Lemma index_firstn {A : Type} (l : list A) (n : nat) (i : Z) :
  0 <= i < Z.of_nat n -> JS.index (firstn n l) i = JS.index l i.
Proof.
  intros Hi. unfold JS.index.
  destruct (Z.ltb_spec i 0) as [Hneg | _]; [lia |].
  rewrite nth_error_firstn.
  destruct (Nat.ltb_spec (Z.to_nat i) n); [reflexivity | lia].
Qed.

Lemma index_last {A : Type} (l : list A) (a : A) :
  JS.index (l ++ [a]) (Z.of_nat (length l)) = Some a.
Proof.
  unfold JS.index.
  destruct (Z.ltb_spec (Z.of_nat (length l)) 0) as [Hneg | _]; [lia |].
  rewrite Nat2Z.id, nth_error_app2 by lia.
  now rewrite Nat.sub_diag.
Qed.

(** What a commit does to the history, whatever the state. *)
Lemma saveToHistory_history (s q : State) (scene : Scene) :
  history (saveToHistory s scene q)
  = JS.slice0 (history s) (historyIndex s + 1) ++ [scene].
Proof. reflexivity. Qed.

Lemma saveToHistory_index (s q : State) (scene : Scene) :
  historyIndex (saveToHistory s scene q)
  = Z.of_nat (length (history (saveToHistory s scene q))) - 1.
Proof. reflexivity. Qed.

Lemma saveToHistory_canRedo (s q : State) (scene : Scene) :
  canRedo (saveToHistory s scene q) = false.
Proof.
  unfold canRedo. rewrite saveToHistory_index. apply Z.ltb_irrefl.
Qed.

Lemma saveToHistory_ok (s q : State) (scene : Scene) :
  history_ok s -> history_ok (saveToHistory s scene q).
Proof.
  intros [Hidx H0]. unfold history_ok.
  rewrite saveToHistory_index, saveToHistory_history.
  rewrite slice0_firstn by lia.
  rewrite length_app, length_firstn. cbn [length].
  split; [lia |].
  rewrite index_app_left by (rewrite length_firstn; lia).
  rewrite index_firstn by lia.
  exact H0.
Qed.

Lemma saveToHistory_grows (s q : State) (scene : Scene) :
  history_ok s ->
  Z.of_nat (length (history (saveToHistory s scene q))) = historyIndex s + 2
  /\ historyIndex (saveToHistory s scene q) = historyIndex s + 1.
Proof.
  intros [Hidx _].
  rewrite saveToHistory_index, saveToHistory_history.
  rewrite length_app, Nat2Z.inj_add, slice0_length by lia.
  cbn [length]. lia.
Qed.

(** [undo] and [redo] return (they never throw) on a well-formed history and
    keep it well-formed. *)
Lemma undo_ok (s q : State) :
  history_ok s -> history q = history s ->
  exists q', undo s q = Done q' /\ history q' = history s
             /\ historyIndex q' = (if historyIndex s >? 0 then historyIndex s - 1
                                   else historyIndex q).
Proof.
  intros [Hidx _] Hq. unfold undo.
  destruct (Z.gtb_spec (historyIndex s) 0) as [Hpos | Hzero].
  - destruct (index_in_range (history s) (historyIndex s - 1)) as [sc Hsc]; [lia |].
    rewrite Hsc. eexists. split; [reflexivity |]. cbn. auto.
  - eexists. split; [reflexivity |]. auto.
Qed.

Lemma redo_ok (s q : State) :
  history_ok s -> history q = history s ->
  exists q', redo s q = Done q' /\ history q' = history s
             /\ historyIndex q' = (if historyIndex s <? Z.of_nat (length (history s)) - 1
                                   then historyIndex s + 1 else historyIndex q).
Proof.
  intros [Hidx _] Hq. unfold redo.
  destruct (Z.ltb_spec (historyIndex s) (Z.of_nat (length (history s)) - 1)) as [Hlt | Hge].
  - destruct (index_in_range (history s) (historyIndex s + 1)) as [sc Hsc]; [lia |].
    rewrite Hsc. eexists. split; [reflexivity |]. cbn. auto.
  - eexists. split; [reflexivity |]. auto.
Qed.

Lemma call_ok (c : HistoryCall) (s : State) :
  history_ok s -> exists s', call c s = Done s' /\ history_ok s'.
Proof.
  intros Hs. destruct c as [scene | |]; cbn [call].
  - eexists. split; [reflexivity |]. now apply saveToHistory_ok.
  - destruct (undo_ok s s Hs eq_refl) as (q' & -> & Hh & Hi).
    exists q'. split; [reflexivity |].
    destruct Hs as [Hidx H0]. unfold history_ok. rewrite Hh, Hi.
    split; [| exact H0].
    destruct (Z.gtb_spec (historyIndex s) 0); lia.
  - destruct (redo_ok s s Hs eq_refl) as (q' & -> & Hh & Hi).
    exists q'. split; [reflexivity |].
    destruct Hs as [Hidx H0]. unfold history_ok. rewrite Hh, Hi.
    split; [| exact H0].
    destruct (Z.ltb_spec (historyIndex s) (Z.of_nat (length (history s)) - 1)); lia.
Qed.

Lemma initialState_ok : history_ok initialState.
Proof. unfold history_ok. cbn. split; [lia | reflexivity]. Qed.

Lemma calls_ok (cs : list HistoryCall) (s : State) :
  history_ok s -> history_ok (calls cs s).
Proof.
  revert s. induction cs as [| c rest IH]; intros s Hs; cbn [calls]; [exact Hs |].
  apply IH. destruct (call_ok c s Hs) as (s' & -> & Hs'). exact Hs'.
Qed.

(** C1.  After every sequence of [commit] ([saveToHistory]), [undo] and [redo]
    calls made from the initial state ([history = [[]]], [historyIndex = 0])
    the history invariant holds: [0 <= historyIndex < history.length] and
    [history[0]] is the empty scene.  Moreover the next call, whichever it is,
    returns without throwing. *)
Theorem history_invariant (cs : list HistoryCall) :
  history_ok (calls cs initialState)
  /\ forall c, exists s', call c (calls cs initialState) = Done s'.
Proof.
  assert (H : history_ok (calls cs initialState))
    by (apply calls_ok, initialState_ok).
  split; [exact H |].
  intros c. destruct (call_ok c _ H) as (s' & Hc & _). now exists s'.
Qed.

(** [undo()] followed by [redo()] on a well-formed history comes back to the
    same cursor and shows the entry under it. *)
Lemma undo_then_redo (s : State) :
  0 < historyIndex s < Z.of_nat (length (history s)) ->
  exists s1 s2 scene,
    undo s s = Done s1 /\ redo s1 s1 = Done s2
    /\ JS.index (history s) (historyIndex s) = Some scene
    /\ shapes s2 = scene
    /\ historyIndex s2 = historyIndex s
    /\ history s2 = history s.
Proof.
  intros Hidx.
  destruct (index_in_range (history s) (historyIndex s - 1)) as [sc Hsc]; [lia |].
  destruct (index_in_range (history s) (historyIndex s)) as [scene Hscene]; [lia |].
  exists (setSelectedShapeId None (setShapes sc (setHistoryIndex (historyIndex s - 1) s))).
  eexists. exists scene. split.
  - unfold undo. destruct (Z.gtb_spec (historyIndex s) 0) as [_ | Hz]; [| lia].
    now rewrite Hsc.
  - unfold redo. cbn [historyIndex history setSelectedShapeId setShapes setHistoryIndex].
    destruct (Z.ltb_spec (historyIndex s - 1) (Z.of_nat (length (history s)) - 1))
      as [_ | Hge]; [| lia].
    replace (historyIndex s - 1 + 1) with (historyIndex s) by lia.
    rewrite Hscene. split; [reflexivity |]. cbn. auto.
Qed.

(** C2, as amended.  When the cursor is not at the lower boundary
    ([0 < historyIndex]) of a well-formed history, [undo()] followed by
    [redo()] returns without throwing, restores the cursor, leaves the
    history untouched and shows the committed scene, the entry under the
    cursor.  The scene that existed before the [undo()] is restored exactly
    when it was that committed scene; a move that has not been committed yet
    is not brought back. *)
Theorem undo_redo_inverse (s : State) :
  0 < historyIndex s < Z.of_nat (length (history s)) ->
  exists s1 s2 committed,
    undo s s = Done s1 /\ redo s1 s1 = Done s2
    /\ JS.index (history s) (historyIndex s) = Some committed
    /\ shapes s2 = committed
    /\ historyIndex s2 = historyIndex s
    /\ history s2 = history s
    /\ (shapes s2 = shapes s
        <-> JS.index (history s) (historyIndex s) = Some (shapes s)).
Proof.
  intros Hidx.
  destruct (undo_then_redo s Hidx) as (s1 & s2 & scene & Hu & Hr & Hsc & Hsh & Hi & Hh).
  exists s1, s2, scene. repeat split; try assumption; congruence.
Qed.

Lemma undo_redo_inverse_witness :
  exists s1 s2 committed,
    undo afterRectangle afterRectangle = Done s1 /\ redo s1 s1 = Done s2
    /\ JS.index (history afterRectangle) (historyIndex afterRectangle) = Some committed
    /\ shapes s2 = committed
    /\ historyIndex s2 = historyIndex afterRectangle
    /\ history s2 = history afterRectangle
    /\ (shapes s2 = shapes afterRectangle
        <-> JS.index (history afterRectangle) (historyIndex afterRectangle)
            = Some (shapes afterRectangle)).
Proof.
  apply (undo_redo_inverse afterRectangle).
  vm_compute. split; reflexivity.
Defined.

(** C3.  In a well-formed history where [canUndo()] holds, [undo()] followed
    by [commit(S)] leaves [canRedo()] false: the commit keeps the entries up
    to the cursor reached by the undo, drops every entry beyond it, appends
    [S], and puts the cursor on the new last index. *)
Theorem commit_after_undo_discards_redo (s : State) (S : Scene) :
  canUndo s = true ->
  historyIndex s < Z.of_nat (length (history s)) ->
  exists s1,
    undo s s = Done s1
    /\ canRedo (saveToHistory s1 S s1) = false
    /\ history (saveToHistory s1 S s1)
       = firstn (Z.to_nat (historyIndex s1 + 1)) (history s) ++ [S]
    /\ historyIndex s1 = historyIndex s - 1
    /\ historyIndex (saveToHistory s1 S s1)
       = Z.of_nat (length (history (saveToHistory s1 S s1))) - 1.
Proof.
  unfold canUndo. intros Hcan Hlt.
  destruct (Z.gtb_spec (historyIndex s) 0) as [Hpos | ]; [| discriminate].
  destruct (index_in_range (history s) (historyIndex s - 1)) as [sc Hsc]; [lia |].
  exists (setSelectedShapeId None (setShapes sc (setHistoryIndex (historyIndex s - 1) s))).
  split.
  - unfold undo. destruct (Z.gtb_spec (historyIndex s) 0) as [_ | Hz]; [| lia].
    now rewrite Hsc.
  - split; [apply saveToHistory_canRedo |].
    split; [| split; [reflexivity | apply saveToHistory_index]].
    rewrite saveToHistory_history.
    cbn [historyIndex history setSelectedShapeId setShapes setHistoryIndex].
    now rewrite slice0_firstn by lia.
Qed.

Lemma commit_after_undo_discards_redo_witness :
  exists s1,
    undo afterRectangle afterRectangle = Done s1
    /\ canRedo (saveToHistory s1 [] s1) = false
    /\ history (saveToHistory s1 [] s1)
       = firstn (Z.to_nat (historyIndex s1 + 1)) (history afterRectangle) ++ [[]]
    /\ historyIndex s1 = historyIndex afterRectangle - 1
    /\ historyIndex (saveToHistory s1 [] s1)
       = Z.of_nat (length (history (saveToHistory s1 [] s1))) - 1.
Proof.
  apply (commit_after_undo_discards_redo afterRectangle []).
  - reflexivity.
  - vm_compute. reflexivity.
Defined.

(** ** Hit testing *)

Local Open Scope R_scope.

Lemma ltb_true (a b : R) : JS.ltb a b = true <-> a < b.
Proof. unfold JS.ltb. destruct (Rlt_dec a b); split; intros; try discriminate; auto; lra. Qed.

Lemma leb_true (a b : R) : JS.leb a b = true <-> a <= b.
Proof. unfold JS.leb. destruct (Rle_dec a b); split; intros; try discriminate; auto; lra. Qed.

Lemma gtb_true (a b : R) : JS.gtb a b = true <-> b < a.
Proof. apply ltb_true. Qed.

Lemma geb_true (a b : R) : JS.geb a b = true <-> b <= a.
Proof. apply leb_true. Qed.

Lemma ltb_false (a b : R) : JS.ltb a b = false <-> b <= a.
Proof. unfold JS.ltb. destruct (Rlt_dec a b); split; intros; try discriminate; auto; lra. Qed.

Lemma gtb_false (a b : R) : JS.gtb a b = false <-> a <= b.
Proof. apply ltb_false. Qed.

Lemma neqb_true (a b : R) : JS.neqb a b = true <-> a <> b.
Proof.
  unfold JS.neqb. destruct (Req_dec_T a b); split; intros; try discriminate; auto.
Qed.

Lemma box_test (tolerance x y ax ay w h : R) :
  JS.geb x ((if JS.ltb w 0 then ax + w else ax) - tolerance)
  && JS.leb x ((if JS.ltb w 0 then ax else ax + w) + tolerance)
  && JS.geb y ((if JS.ltb h 0 then ay + h else ay) - tolerance)
  && JS.leb y ((if JS.ltb h 0 then ay else ay + h) + tolerance) = true
  <-> (Rmin ax (ax + w) - tolerance <= x <= Rmax ax (ax + w) + tolerance
       /\ Rmin ay (ay + h) - tolerance <= y <= Rmax ay (ay + h) + tolerance).
Proof.
  rewrite !andb_true_iff, !geb_true, !leb_true.
  destruct (JS.ltb w 0) eqn:Hw; destruct (JS.ltb h 0) eqn:Hh;
    try apply ltb_true in Hw; try apply ltb_false in Hw;
    try apply ltb_true in Hh; try apply ltb_false in Hh;
    split; intros; split_minmax; lra.
Qed.

(** The rectangle case of each variant's hit test. *)
Lemma touch_rectangle_iff (mobile : bool) (x y : R) (shape : Shape.t) :
  Shape.type shape = rectangle ->
  Touch.isInsideShape mobile x y shape = true
  <-> inExpandedBox (if mobile then 15 else 8) x y shape.
Proof.
  intros Hty. unfold Touch.isInsideShape, inExpandedBox.
  rewrite Hty. cbv zeta. apply box_test.
Qed.

Lemma desktop_rectangle_iff (x y : R) (shape : Shape.t) :
  Shape.type shape = rectangle ->
  Desktop.isInsideShape x y shape = true <-> inExpandedBox 0 x y shape.
Proof.
  intros Hty. unfold Desktop.isInsideShape, inExpandedBox.
  rewrite Hty. cbv zeta.
  rewrite <- (box_test 0).
  rewrite !Rminus_0_r, !Rplus_0_r. reflexivity.
Qed.

(** C6.  For a rectangle with any signs of width and height the hit test
    succeeds exactly when the point lies in the sign-normalised bounding box
    grown by the tolerance on all four sides, bounds included.  The
    touch-enabled canvas uses its tolerance (15 on a mobile device, 8
    otherwise); the mouse-only canvas grows the box of a rectangle by
    nothing. *)
Theorem rectangle_hit_test (mobile : bool) (x y : R) (shape : Shape.t) :
  Shape.type shape = rectangle ->
  (Touch.isInsideShape mobile x y shape = true
     <-> inExpandedBox (if mobile then 15 else 8) x y shape)
  /\ (Desktop.isInsideShape x y shape = true <-> inExpandedBox 0 x y shape).
Proof.
  intros Hty. split.
  - now apply touch_rectangle_iff.
  - now apply desktop_rectangle_iff.
Qed.

Lemma rectangle_hit_test_witness :
  (Touch.isInsideShape false (-8) 58 square50 = true
     <-> inExpandedBox 8 (-8) 58 square50)
  /\ (Desktop.isInsideShape (-8) 58 square50 = true
     <-> inExpandedBox 0 (-8) 58 square50).
Proof.
  apply (rectangle_hit_test false (-8) 58 square50). reflexivity.
Defined.

(** A corner of the grown box is hit, whatever the signs of the sizes. *)
Lemma rectangle_corner_hit (mobile : bool) (shape : Shape.t) :
  Shape.type shape = rectangle ->
  let tolerance := if mobile then 15 else 8 in
  let w := JS.orZero (Shape.width shape) in
  let h := JS.orZero (Shape.height shape) in
  Touch.isInsideShape mobile
    (Rmin (Shape.x shape) (Shape.x shape + w) - tolerance)
    (Rmax (Shape.y shape) (Shape.y shape + h) + tolerance) shape = true
  /\ Desktop.isInsideShape
       (Rmin (Shape.x shape) (Shape.x shape + w))
       (Rmax (Shape.y shape) (Shape.y shape + h)) shape = true.
Proof.
  intros Hty tolerance w h.
  split.
  - apply (touch_rectangle_iff mobile _ _ shape Hty).
    unfold inExpandedBox. fold w h tolerance.
    assert (0 <= tolerance) by (unfold tolerance; destruct mobile; lra).
    split_minmax; lra.
  - apply (desktop_rectangle_iff _ _ shape Hty).
    unfold inExpandedBox. fold w h.
    split_minmax; lra.
Qed.

Lemma distance_products (x y ax ay : R) :
  sqrt ((x - ax) * (x - ax) + (y - ay) * (y - ay)) = distance x y ax ay.
Proof. reflexivity. Qed.

Lemma distance_nonneg (x y ax ay : R) : 0 <= distance x y ax ay.
Proof. apply sqrt_pos. Qed.

Lemma distance_self (ax ay : R) : distance ax ay ax ay = 0.
Proof.
  unfold distance. rewrite !Rminus_diag, Rsqr_0, Rplus_0_r. apply sqrt_0.
Qed.

(** The circle case of each variant's hit test. *)
Lemma touch_circle_iff (mobile : bool) (x y : R) (shape : Shape.t) :
  Shape.type shape = circle ->
  Touch.isInsideShape mobile x y shape = true
  <-> distance x y (Shape.x shape) (Shape.y shape)
      <= JS.orZero (Shape.radius shape) + (if mobile then 15 else 8).
Proof.
  intros Hty. unfold Touch.isInsideShape. rewrite Hty. cbv zeta.
  rewrite leb_true, distance_products. reflexivity.
Qed.

Lemma desktop_circle_iff (x y : R) (shape : Shape.t) :
  Shape.type shape = circle ->
  Desktop.isInsideShape x y shape = true
  <-> distance x y (Shape.x shape) (Shape.y shape) <= JS.orZero (Shape.radius shape).
Proof.
  intros Hty. unfold Desktop.isInsideShape. rewrite Hty. cbv zeta.
  rewrite leb_true, distance_products. reflexivity.
Qed.

(** C7.  For a circle the hit test succeeds exactly when the Euclidean
    distance from the point to the anchor is at most the radius plus the
    tolerance (15 or 8 in the touch-enabled canvas, nothing in the mouse-only
    canvas).  The circle is a filled disk: every point closer to the anchor
    than the radius is hit, and so is the anchor itself when the radius is
    not negative. *)
Theorem circle_hit_test (mobile : bool) (x y : R) (shape : Shape.t) :
  Shape.type shape = circle ->
  let d := distance x y (Shape.x shape) (Shape.y shape) in
  let r := JS.orZero (Shape.radius shape) in
  (Touch.isInsideShape mobile x y shape = true
     <-> d <= r + (if mobile then 15 else 8))
  /\ (Desktop.isInsideShape x y shape = true <-> d <= r)
  /\ (d < r ->
      Touch.isInsideShape mobile x y shape = true
      /\ Desktop.isInsideShape x y shape = true)
  /\ (0 <= r ->
      Touch.isInsideShape mobile (Shape.x shape) (Shape.y shape) shape = true
      /\ Desktop.isInsideShape (Shape.x shape) (Shape.y shape) shape = true).
Proof.
  intros Hty d r.
  assert (Htol : 0 <= (if mobile then 15 else 8)) by (destruct mobile; lra).
  split; [now apply touch_circle_iff |].
  split; [now apply desktop_circle_iff |].
  split.
  - intros Hd. split.
    + apply touch_circle_iff; [assumption |]. fold d r. lra.
    + apply desktop_circle_iff; [assumption |]. fold d r. lra.
  - intros Hr. split.
    + apply touch_circle_iff; [assumption |]. rewrite distance_self. fold r. lra.
    + apply desktop_circle_iff; [assumption |]. rewrite distance_self. fold r. lra.
Qed.

Lemma circle_hit_test_witness :
  let d := distance 110 100 (Shape.x disk20) (Shape.y disk20) in
  let r := JS.orZero (Shape.radius disk20) in
  (Touch.isInsideShape true 110 100 disk20 = true <-> d <= r + 15)
  /\ (Desktop.isInsideShape 110 100 disk20 = true <-> d <= r)
  /\ (d < r ->
      Touch.isInsideShape true 110 100 disk20 = true
      /\ Desktop.isInsideShape 110 100 disk20 = true)
  /\ (0 <= r ->
      Touch.isInsideShape true (Shape.x disk20) (Shape.y disk20) disk20 = true
      /\ Desktop.isInsideShape (Shape.x disk20) (Shape.y disk20) disk20 = true).
Proof.
  apply (circle_hit_test true 110 100 disk20). reflexivity.
Defined.

(** ** Distance from a point to a segment *)

Lemma len_sq_zero (c d : R) : c * c + d * d = 0 <-> c = 0 /\ d = 0.
Proof.
  split.
  - intros H. split; nra.
  - intros [-> ->]. lra.
Qed.

(** The squared distance to the point at parameter [u], as a quadratic in [u]
    around the unclamped projection [t]. *)
Lemma closest_on_segment (a b c d t u : R) :
  0 < c * c + d * d ->
  t = (a * c + b * d) / (c * c + d * d) ->
  0 <= u <= 1 ->
  Rsqr (a - clamp01 t * c) + Rsqr (b - clamp01 t * d)
  <= Rsqr (a - u * c) + Rsqr (b - u * d).
Proof.
  intros HL Ht Hu.
  assert (Hdot : a * c + b * d = t * (c * c + d * d)).
  { rewrite Ht. field. lra. }
  set (L := c * c + d * d) in *.
  assert (Hexp : forall v, Rsqr (a - v * c) + Rsqr (b - v * d)
                           = a * a + b * b + L * (v * v - 2 * v * t)).
  { intros v. unfold Rsqr, L.
    replace ((a - v * c) * (a - v * c) + (b - v * d) * (b - v * d))
      with (a * a + b * b - 2 * v * (a * c + b * d) + v * v * (c * c + d * d)) by ring.
    rewrite Hdot. unfold L. ring. }
  rewrite !Hexp.
  apply Rplus_le_compat_l, Rmult_le_compat_l; [lra |].
  clear Ht Hdot Hexp HL. unfold clamp01. split_minmax.
  - (* 1 <= t: the far endpoint *)
    assert (0 <= (1 - u) * (2 * t - 1 - u)) by (apply Rmult_le_pos; lra). lra.
  - (* 0 <= t < 1: the projection itself *)
    pose proof (Rle_0_sqr (u - t)) as Hsq. unfold Rsqr in Hsq. lra.
  - lra.
  - (* t < 0: the near endpoint *)
    assert (0 <= u * (u - 2 * t)) by (apply Rmult_le_pos; lra). lra.
Qed.

(** The value computed for a proper segment and for a degenerate one. *)
Lemma pointToLineDistance_proper (x y x1 y1 x2 y2 : R) :
  (x2 - x1) * (x2 - x1) + (y2 - y1) * (y2 - y1) <> 0 ->
  let t := ((x - x1) * (x2 - x1) + (y - y1) * (y2 - y1))
           / ((x2 - x1) * (x2 - x1) + (y2 - y1) * (y2 - y1)) in
  pointToLineDistance x y x1 y1 x2 y2
  = Some (distance x y (x1 + clamp01 t * (x2 - x1)) (y1 + clamp01 t * (y2 - y1))).
Proof.
  intros HL t. unfold pointToLineDistance. cbv zeta.
  fold t. set (C := x2 - x1) in *. set (D := y2 - y1) in *.
  set (L := C * C + D * D) in *.
  assert (Hne : JS.neqb L 0 = true) by now apply neqb_true.
  rewrite Hne. unfold JS.js_div.
  destruct (Req_dec_T L 0) as [HL0 | _]; [contradiction |].
  fold t.
  assert (Hc : (if JS.ltb t 0 then 0 else if JS.gtb t 1 then 1 else t) = clamp01 t).
  { unfold clamp01.
    destruct (JS.ltb t 0) eqn:H0; [apply ltb_true in H0 | apply ltb_false in H0];
      [split_minmax; lra |].
    destruct (JS.gtb t 1) eqn:H1; [apply gtb_true in H1 | apply gtb_false in H1];
      split_minmax; lra. }
  assert (Hxx : (if JS.ltb t 0 then x1 else if JS.gtb t 1 then x2 else x1 + t * C)
                = x1 + clamp01 t * C).
  { rewrite <- Hc. unfold C.
    destruct (JS.ltb t 0); [ring |]. destruct (JS.gtb t 1); ring. }
  assert (Hyy : (if JS.ltb t 0 then y1 else if JS.gtb t 1 then y2 else y1 + t * D)
                = y1 + clamp01 t * D).
  { rewrite <- Hc. unfold D.
    destruct (JS.ltb t 0); [ring |]. destruct (JS.gtb t 1); ring. }
  now rewrite Hxx, Hyy, distance_products.
Qed.

Lemma pointToLineDistance_degenerate (x y x1 y1 x2 y2 : R) :
  (x2 - x1) * (x2 - x1) + (y2 - y1) * (y2 - y1) = 0 ->
  pointToLineDistance x y x1 y1 x2 y2 = Some (distance x y x1 y1).
Proof.
  intros HL. unfold pointToLineDistance. cbv zeta.
  assert (Hne : JS.neqb ((x2 - x1) * (x2 - x1) + (y2 - y1) * (y2 - y1)) 0 = false).
  { unfold JS.neqb. destruct (Req_dec_T _ 0); [reflexivity | contradiction]. }
  rewrite Hne.
  assert (Hneg : JS.ltb (-1) 0 = true) by (apply ltb_true; lra).
  now rewrite Hneg, distance_products.
Qed.

(** C8.  [pointToLineDistance] always returns a number: no division by zero
    is evaluated.  For a segment whose endpoints coincide the result is the
    distance from the query point to the first endpoint.  Otherwise it is
    the distance to the point of the segment at the projection parameter
    clamped to [0, 1], which is the closest point of the segment. *)
Theorem pointToLineDistance_total (x y x1 y1 x2 y2 : R) :
  exists d,
    pointToLineDistance x y x1 y1 x2 y2 = Some d
    /\ (x1 = x2 /\ y1 = y2 -> d = distance x y x1 y1)
    /\ (~ (x1 = x2 /\ y1 = y2) ->
        let t := ((x - x1) * (x2 - x1) + (y - y1) * (y2 - y1))
                 / ((x2 - x1) * (x2 - x1) + (y2 - y1) * (y2 - y1)) in
        d = distance x y (x1 + clamp01 t * (x2 - x1)) (y1 + clamp01 t * (y2 - y1))
        /\ forall u, 0 <= u <= 1 ->
             d <= distance x y (x1 + u * (x2 - x1)) (y1 + u * (y2 - y1))).
Proof.
  set (L := (x2 - x1) * (x2 - x1) + (y2 - y1) * (y2 - y1)).
  destruct (Req_dec_T L 0) as [HL0 | HL].
  - (* both endpoints coincide: [param] keeps its initial value -1 *)
    exists (distance x y x1 y1).
    split; [now apply pointToLineDistance_degenerate |].
    split; [reflexivity |].
    intros Hne. exfalso. apply Hne.
    apply len_sq_zero in HL0. destruct HL0. split; lra.
  - (* a proper segment *)
    eexists. split; [now apply pointToLineDistance_proper |]. split.
    + intros [Hx Hy]. exfalso. apply HL. unfold L. subst. ring.
    + intros _. cbv zeta. fold L. split; [reflexivity |].
      intros u Hu. unfold distance. apply sqrt_le_1_alt.
      set (t := _ / L).
      replace (x - (x1 + clamp01 t * (x2 - x1)))
        with ((x - x1) - clamp01 t * (x2 - x1)) by ring.
      replace (y - (y1 + clamp01 t * (y2 - y1)))
        with ((y - y1) - clamp01 t * (y2 - y1)) by ring.
      replace (x - (x1 + u * (x2 - x1))) with ((x - x1) - u * (x2 - x1)) by ring.
      replace (y - (y1 + u * (y2 - y1))) with ((y - y1) - u * (y2 - y1)) by ring.
      assert (HLpos : 0 < L).
      { clear t.
        pose proof (Rle_0_sqr (x2 - x1)) as Hc. pose proof (Rle_0_sqr (y2 - y1)) as Hd.
        unfold Rsqr in Hc, Hd. fold L in HL. unfold L in *. lra. }
      apply closest_on_segment; [exact HLpos | reflexivity | exact Hu].
Qed.

(** ** Moving the selected shape *)

Lemma same_id_true (id : string) (selected : option string) :
  JS.same_id id selected = true <-> selected = Some id.
Proof.
  destruct selected as [sel |]; cbn.
  - rewrite String.eqb_eq. split; intros H; [now subst | now injection H].
  - split; intros H; discriminate.
Qed.

Lemma moveSelected_frame (x y : R) (s : State) :
  Forall2 (dragged (selectedShapeId s)
                   (x - Point.x (offset s)) (y - Point.y (offset s)))
          (shapes s) (shapes (moveSelected x y s s))
  /\ only_shapes_differ s (moveSelected x y s s).
Proof.
  split; [| reflexivity].
  cbn [moveSelected shapes setShapes].
  induction (shapes s) as [| shape rest IH]; cbn [map]; constructor; [| exact IH].
  destruct (JS.same_id (Shape.id shape) (selectedShapeId s)) eqn:Hid.
  - split; [intros _ | intros Hne; apply same_id_true in Hid; contradiction].
    unfold anchor_moved. cbn. repeat split.
  - split; [| reflexivity].
    intros Hsel. apply same_id_true in Hsel. congruence.
Qed.

(** C9.  A pointer-move handled while the select tool is active, a shape is
    selected and nothing is being drawn changes only the scene, and in the
    scene only the [x] and [y] of the shapes whose [id] is the selected one
    (they become pointer minus offset): their [id], [type], [width],
    [height], [radius], [x2], [y2] and [path] are kept, every other shape is
    kept, and so are the length and the order of the scene.  Both variants
    do the same, for mouse and for touch events. *)
Theorem drag_move_frame (x y : R) (s : State) :
  Dragging s ->
  let s' := Desktop.handleMouseMove select x y s in
  Forall2 (dragged (selectedShapeId s)
                   (x - Point.x (offset s)) (y - Point.y (offset s)))
          (shapes s) (shapes s')
  /\ length (shapes s') = length (shapes s)
  /\ only_shapes_differ s s'
  /\ Touch.handlePointerMove select (Touch.OfMouse x y) s = Done s'
  /\ Touch.handlePointerMove select (Touch.OfTouch x y) s = Done s'.
Proof.
  intros [Hdraw Hsel] s'.
  assert (Hs' : s' = moveSelected x y s s).
  { unfold s', Desktop.handleMouseMove. now rewrite Hsel, Hdraw. }
  rewrite Hs'.
  destruct (moveSelected_frame x y s) as [Hframe Hrest].
  split; [exact Hframe |].
  split; [symmetry; eapply Forall2_length; exact Hframe |].
  split; [exact Hrest |].
  unfold Touch.handlePointerMove. now rewrite Hsel, Hdraw.
Qed.

(** ** Concrete gestures on the mouse-only canvas *)

Lemma run_app (evs evs' : list Desktop.Event) (s : State) :
  Desktop.run (evs ++ evs') s = Desktop.run evs' (Desktop.run evs s).
Proof.
  revert s. induction evs as [| ev rest IH]; intros s; cbn; [reflexivity | apply IH].
Qed.

Lemma afterRectangle_eq :
  afterRectangle
  = mkState [box50] false 0 0 None None (Point.mk 0 0) false []
            [[]; [box50]] 1 false 0.
Proof. reflexivity. Qed.

Lemma box50_hit : Desktop.isInsideShape 25 25 box50 = true.
Proof.
  apply desktop_rectangle_iff; [reflexivity |].
  unfold inExpandedBox. cbn. split_minmax; lra.
Qed.

Lemma dragging_reachable : Desktop.run pressRectangle initialState = dragging.
Proof.
  unfold pressRectangle. rewrite run_app.
  fold afterRectangle. rewrite afterRectangle_eq.
  cbn. unfold Desktop.topmost. cbn. now rewrite box50_hit.
Qed.

Lemma drag_move_frame_witness :
  let s' := Desktop.handleMouseMove select 30 40 dragging in
  Forall2 (dragged (selectedShapeId dragging)
                   (30 - Point.x (offset dragging)) (40 - Point.y (offset dragging)))
          (shapes dragging) (shapes s')
  /\ length (shapes s') = length (shapes dragging)
  /\ only_shapes_differ dragging s'
  /\ Touch.handlePointerMove select (Touch.OfMouse 30 40) dragging = Done s'
  /\ Touch.handlePointerMove select (Touch.OfTouch 30 40) dragging = Done s'.
Proof.
  apply (drag_move_frame 30 40 dragging). split; reflexivity.
Defined.

(** ** Leaving the surface *)

Lemma movedRectangle_reachable :
  Desktop.run (pressRectangle ++ [Desktop.MouseMove select 30 40]) initialState
  = movedRectangle.
Proof. rewrite run_app, dragging_reachable. reflexivity. Qed.

(** C2.  Counterexample to the claim as stated: the rectangle is pressed with
    the select tool and moved, and undo and redo are called before the
    release.  The cursor is not at a boundary, both calls return, and the
    canvas then shows the committed rectangle at (0,0), not the scene with
    the rectangle moved to (5,15) that existed before the [undo()]. *)
Lemma undo_redo_loses_uncommitted_move :
  Desktop.run (pressRectangle ++ [Desktop.MouseMove select 30 40]) initialState
  = movedRectangle
  /\ (0 < historyIndex movedRectangle)%Z
  /\ exists s1 s2,
       undo movedRectangle movedRectangle = Done s1 /\ redo s1 s1 = Done s2
       /\ historyIndex s2 = historyIndex movedRectangle
       /\ shapes s2 = [box50]
       /\ shapes s2 <> shapes movedRectangle.
Proof.
  split; [apply movedRectangle_reachable |].
  split; [reflexivity |].
  do 2 eexists. split; [reflexivity |]. split; [reflexivity |].
  split; [reflexivity |]. split; [reflexivity |].
  cbn. intros Heq. injection Heq as Hx Hy. lra.
Qed.

(** C4.  Counterexample to the claim as stated: while a shape is being
    dragged, the pointer leaving the surface is not handled like a
    pointer-up.  Nothing is committed and the drag stays active, whereas a
    pointer-up commits the moved scene and clears the selection. *)
Lemma leave_while_dragging_is_not_pointer_up :
  Desktop.run (pressRectangle ++ [Desktop.MouseMove select 30 40]) initialState
  = movedRectangle
  /\ Dragging movedRectangle
  /\ Desktop.onMouseLeave select movedRectangle = movedRectangle
  /\ Touch.onMouseLeave select movedRectangle = Done movedRectangle
  /\ length (history (Desktop.onMouseLeave select movedRectangle)) = 2%nat
  /\ length (history (Desktop.handleMouseUp select movedRectangle)) = 3%nat
  /\ Desktop.onMouseLeave select movedRectangle
     <> Desktop.handleMouseUp select movedRectangle.
Proof.
  split; [apply movedRectangle_reachable |].
  repeat split; try reflexivity.
  intros Heq. apply (f_equal (fun s => length (history s))) in Heq.
  cbn in Heq. discriminate.
Qed.

(** C4, as amended.  When the pointer leaves the surface while a shape is
    being drawn, the mouse-only canvas does exactly what it does on
    pointer-up: the shape in progress is appended to the scene, the scene is
    committed to the history and the machine is idle again.  When nothing is
    being drawn, in particular while a shape is being dragged, leaving the
    surface changes nothing, in either variant. *)
Theorem pointer_leave_behaviour (selectedTool : ShapeType) (s : State) :
  (forall cur, Drawing s cur ->
     let s' := Desktop.onMouseLeave selectedTool s in
     s' = Desktop.handleMouseUp selectedTool s
     /\ shapes s' = shapes s ++ [cur]
     /\ history s'
        = JS.slice0 (history s) (historyIndex s + 1) ++ [shapes s ++ [cur]]
     /\ historyIndex s' = (Z.of_nat (length (history s')) - 1)%Z
     /\ Idle s')
  /\ (isDrawing s = false ->
      Desktop.onMouseLeave selectedTool s = s
      /\ Touch.onMouseLeave selectedTool s = Done s
      /\ Touch.onTouchCancel selectedTool s = Done s)
  /\ (Dragging s ->
      Desktop.onMouseLeave selectedTool s = s
      /\ Touch.onMouseLeave selectedTool s = Done s
      /\ Touch.onTouchCancel selectedTool s = Done s).
Proof.
  assert (Hidle : isDrawing s = false ->
                  Desktop.onMouseLeave selectedTool s = s
                  /\ Touch.onMouseLeave selectedTool s = Done s
                  /\ Touch.onTouchCancel selectedTool s = Done s).
  { intros Hdraw.
    unfold Desktop.onMouseLeave, Touch.onMouseLeave, Touch.onTouchCancel.
    rewrite Hdraw. repeat split. }
  split; [| split; [exact Hidle | intros [Hdraw _]; now apply Hidle]].
  intros cur [Hdraw Hcur].
  unfold Desktop.onMouseLeave. rewrite Hdraw. cbv zeta.
  split; [reflexivity |].
  unfold Desktop.handleMouseUp, finishGesture, Idle.
  rewrite Hdraw, Hcur. cbn. repeat split.
Qed.

(** In the touch-enabled variant the handler called on leave or cancel while
    drawing receives [{}] and throws on [e.preventDefault()]: the shape in
    progress is neither committed nor dropped. *)
Lemma touch_leave_while_drawing_throws (selectedTool : ShapeType) (s : State) :
  isDrawing s = true ->
  Touch.onMouseLeave selectedTool s = Threw s
  /\ Touch.onTouchCancel selectedTool s = Threw s.
Proof.
  intros Hdraw. unfold Touch.onMouseLeave, Touch.onTouchCancel.
  now rewrite Hdraw.
Qed.

(** ** Pointer-up on a selected shape *)

Lemma afterUndo_eq :
  Desktop.run
    [ Desktop.MouseDown rectangle 3 100 100;
      Desktop.MouseMove rectangle 150 150;
      Desktop.MouseUp rectangle;
      Desktop.KeyDown (mkKey "z" true false false) ]
    (mkState [box50] false 0 0 None None (Point.mk 0 0) false []
             [[]; [box50]] 1 false 0)
  = mkState [box50] false 100 100 None None (Point.mk 0 0) false []
            [[]; [box50]; [box50; box150]] 1 false 0.
Proof. reflexivity. Qed.

Lemma pressedAfterUndo_reachable :
  Desktop.run pressAfterUndo initialState = pressedAfterUndo.
Proof.
  unfold pressAfterUndo. rewrite run_app.
  fold afterRectangle. rewrite afterRectangle_eq.
  change [ Desktop.MouseDown rectangle 3 100 100;
           Desktop.MouseMove rectangle 150 150;
           Desktop.MouseUp rectangle;
           Desktop.KeyDown (mkKey "z" true false false);
           Desktop.MouseDown select 4 25 25 ]
    with ([ Desktop.MouseDown rectangle 3 100 100;
            Desktop.MouseMove rectangle 150 150;
            Desktop.MouseUp rectangle;
            Desktop.KeyDown (mkKey "z" true false false) ]
          ++ [ Desktop.MouseDown select 4 25 25 ]).
  rewrite run_app, afterUndo_eq.
  cbn. unfold Desktop.topmost. cbn. now rewrite box50_hit.
Qed.

(** C10.  Counterexample to the claim as stated: a pointer-up on a selected
    shape after an undo replaces the entry that could be redone, and the
    history is as long as before. *)
Lemma pointer_up_after_undo_keeps_length :
  Desktop.run pressAfterUndo initialState = pressedAfterUndo
  /\ JS.truthy (selectedShapeId pressedAfterUndo) = true
  /\ isDrawing pressedAfterUndo = false
  /\ history (Desktop.handleMouseUp select pressedAfterUndo)
     = [[]; [box50]; [box50]]
  /\ length (history (Desktop.handleMouseUp select pressedAfterUndo))
     <> S (length (history pressedAfterUndo)).
Proof.
  split; [apply pressedAfterUndo_reachable |].
  repeat split; try reflexivity.
  cbn. discriminate.
Qed.

(** C10, as amended.  A pointer-up handled while the select tool is active
    and a shape is selected commits a snapshot of the scene, also when no
    pointer-move came after the pointer-down: the entries after the cursor
    are dropped, the scene is appended and the cursor is put on it.  The
    history then has [historyIndex + 2] entries, one more than before when
    the cursor was on the last entry; [canUndo()] holds; the selection is
    cleared.  When nothing is being drawn the scene is not changed, and if
    it was the entry under the cursor the new entry equals its predecessor.
    Both variants do the same. *)
Theorem pointer_up_commits_selection (s : State) :
  history_ok s ->
  JS.truthy (selectedShapeId s) = true ->
  let s' := Desktop.handleMouseUp select s in
  history s'
  = firstn (Z.to_nat (historyIndex s + 1)) (history s) ++ [shapes s']
  /\ historyIndex s' = (historyIndex s + 1)%Z
  /\ Z.of_nat (length (history s')) = (historyIndex s + 2)%Z
  /\ canUndo s' = true
  /\ selectedShapeId s' = None
  /\ (isDrawing s = false -> shapes s' = shapes s)
  /\ (isDrawing s = false ->
      JS.index (history s) (historyIndex s) = Some (shapes s) ->
      JS.index (history s') (historyIndex s' - 1) = Some (shapes s')
      /\ JS.index (history s') (historyIndex s') = Some (shapes s'))
  /\ (historyIndex s = (Z.of_nat (length (history s)) - 1)%Z ->
      length (history s') = S (length (history s)))
  /\ (forall x y,
        Touch.handlePointerUp select (Touch.OfMouse x y) s = Done s'
        /\ Touch.handlePointerUp select (Touch.OfTouch x y) s = Done s').
Proof.
  intros Hok Hsel s'.
  assert (Hidx := proj1 Hok).
  (* whichever branch is taken, the scene left by the handler is committed *)
  assert (Hs' : s' = setSelectedShapeId None
                       (saveToHistory s (shapes s') (setShapes (shapes s') s))
                \/ exists cur,
                     isDrawing s = true /\ currentShape s = Some cur
                     /\ s' = setSelectedShapeId None
                         (setPenPath [] (setIsDrawing false (setCurrentShape None
                            (saveToHistory s (shapes s ++ [cur])
                               (setShapes (shapes s ++ [cur]) s)))))).
  { unfold s', Desktop.handleMouseUp, finishGesture.
    destruct (isDrawing s) eqn:Hd; [destruct (currentShape s) as [cur |] eqn:Hc |].
    - right. exists cur. auto.
    - left. cbn [ShapeType_eqb andb]. rewrite Hsel. cbn. destruct s; reflexivity.
    - left. cbn [ShapeType_eqb andb]. rewrite Hsel. cbn. destruct s; reflexivity. }
  assert (Hhist : history s' = JS.slice0 (history s) (historyIndex s + 1) ++ [shapes s']).
  { destruct Hs' as [-> | (cur & _ & _ & ->)]; reflexivity. }
  assert (Hi : historyIndex s' = (Z.of_nat (length (history s')) - 1)%Z).
  { destruct Hs' as [-> | (cur & _ & _ & ->)]; reflexivity. }
  assert (Hlen : Z.of_nat (length (history s')) = (historyIndex s + 2)%Z).
  { rewrite Hhist, length_app, Nat2Z.inj_add, slice0_length by lia. cbn. lia. }
  assert (Hkeep : isDrawing s = false -> shapes s' = shapes s).
  { intros Hd. destruct Hs' as [Hs' | (cur & Hd' & _)]; [| congruence].
    unfold s', Desktop.handleMouseUp, finishGesture. rewrite Hd.
    cbn [ShapeType_eqb andb]. now rewrite Hsel. }
  rewrite slice0_firstn in Hhist by lia.
  split; [exact Hhist |].
  split; [lia |].
  split; [exact Hlen |].
  split; [unfold canUndo; apply Z.gtb_lt; lia |].
  split; [destruct Hs' as [-> | (cur & _ & _ & ->)]; reflexivity |].
  split; [exact Hkeep |].
  split.
  - intros Hd Hshown. rewrite (Hkeep Hd) in *. split.
    + replace (historyIndex s' - 1)%Z with (historyIndex s) by lia.
      rewrite Hhist, index_app_left by (rewrite length_firstn; lia).
      now rewrite index_firstn by lia.
    + replace (historyIndex s') with
        (Z.of_nat (length (firstn (Z.to_nat (historyIndex s + 1)) (history s))))
        by (rewrite length_firstn; lia).
      rewrite Hhist. apply index_last.
  - split; [intros Hlast; lia |].
    intros x y. split; reflexivity.
Qed.

Lemma pointer_up_commits_selection_witness :
  let s' := Desktop.handleMouseUp select dragging in
  history s'
  = firstn (Z.to_nat (historyIndex dragging + 1)) (history dragging) ++ [shapes s']
  /\ historyIndex s' = (historyIndex dragging + 1)%Z
  /\ Z.of_nat (length (history s')) = (historyIndex dragging + 2)%Z
  /\ canUndo s' = true
  /\ selectedShapeId s' = None
  /\ (isDrawing dragging = false -> shapes s' = shapes dragging)
  /\ (isDrawing dragging = false ->
      JS.index (history dragging) (historyIndex dragging) = Some (shapes dragging) ->
      JS.index (history s') (historyIndex s' - 1) = Some (shapes s')
      /\ JS.index (history s') (historyIndex s') = Some (shapes s'))
  /\ (historyIndex dragging = (Z.of_nat (length (history dragging)) - 1)%Z ->
      length (history s') = S (length (history dragging)))
  /\ (forall x y,
        Touch.handlePointerUp select (Touch.OfMouse x y) dragging = Done s'
        /\ Touch.handlePointerUp select (Touch.OfTouch x y) dragging = Done s').
Proof.
  apply (pointer_up_commits_selection dragging).
  - split; [cbn; lia | reflexivity].
  - reflexivity.
Defined.

(** ** The anchor of a pen stroke *)

Lemma penStroke_hit : Desktop.isInsideShape 0 0 penStroke = true.
Proof.
  unfold Desktop.isInsideShape. cbn.
  rewrite pointToLineDistance_proper by lra. cbv zeta.
  set (t := _ / _).
  assert (Ht : t = 0) by (unfold t, Rdiv; ring).
  assert (Hc : clamp01 t = 0) by (rewrite Ht; unfold clamp01; split_minmax; lra).
  rewrite Hc. unfold distance, Rsqr.
  replace ((0 - (0 + 0 * (10 - 0))) * (0 - (0 + 0 * (10 - 0)))
           + (0 - (0 + 0 * (0 - 0))) * (0 - (0 + 0 * (0 - 0)))) with 0 by ring.
  rewrite sqrt_0. cbn.
  assert (H8 : JS.ltb 0 8 = true) by (apply ltb_true; lra).
  now rewrite H8.
Qed.

Lemma afterPenStroke_eq :
  Desktop.run
    [ Desktop.MouseDown pen 1 0 0; Desktop.MouseMove pen 10 0; Desktop.MouseUp pen ]
    initialState
  = mkState [penStroke] false 0 0 None None (Point.mk 0 0) false []
            [[]; [penStroke]] 1 false 0.
Proof. reflexivity. Qed.

(** C5.  The gesture [penThenDrag] commits a scene whose pen stroke has its
    anchor at (5,7) while its path still starts at (0,0): the drag moves the
    anchor and leaves the path where it was. *)
Theorem drag_leaves_pen_path_behind :
  let s := Desktop.run penThenDrag initialState in
  exists p,
    shapes s = [p]
    /\ JS.index (history s) (historyIndex s) = Some [p]
    /\ Shape.type p = pen
    /\ Shape.x p = 5 /\ Shape.y p = 7
    /\ Shape.path p = Some [Point.mk 0 0; Point.mk 10 0]
    /\ ~ pen_anchored p.
Proof.
  cbv zeta.
  change penThenDrag
    with ([ Desktop.MouseDown pen 1 0 0; Desktop.MouseMove pen 10 0;
            Desktop.MouseUp pen ]
          ++ [ Desktop.MouseDown select 2 0 0; Desktop.MouseMove select 5 7;
               Desktop.MouseUp select ]).
  rewrite run_app, afterPenStroke_eq.
  cbn. unfold Desktop.topmost. cbn. rewrite penStroke_hit. cbn.
  eexists. split; [reflexivity |]. split; [reflexivity |]. cbn.
  split; [reflexivity |].
  split; [lra |]. split; [lra |]. split; [reflexivity |].
  intros Hanch. destruct (Hanch eq_refl) as [rest Hrest]. cbn in Hrest.
  injection Hrest as Hx Hy _. lra.
Qed.

Lemma Forall_slice0 {A : Type} (P : A -> Prop) (l : list A) (e : Z) :
  Forall P l -> Forall P (JS.slice0 l e).
Proof.
  intros H. unfold JS.slice0.
  generalize (Z.to_nat (if (e <? 0)%Z
                        then Z.max (Z.of_nat (length l) + e) 0
                        else Z.min e (Z.of_nat (length l)))).
  intros n. revert n. induction H as [| a l Ha Hl IH]; intros [| n]; cbn; auto.
Qed.

Lemma Forall_index {A : Type} (P : A -> Prop) (l : list A) (i : Z) (a : A) :
  Forall P l -> JS.index l i = Some a -> P a.
Proof.
  intros H Hi. unfold JS.index in Hi.
  destruct (i <? 0)%Z; [discriminate |].
  rewrite Forall_forall in H. apply H. eapply nth_error_In. exact Hi.
Qed.

Lemma saveToHistory_pen_inv (s q : State) (scene : Scene) :
  Forall (Forall pen_anchored) (history s) ->
  Forall pen_anchored scene ->
  Forall (Forall pen_anchored) (history (saveToHistory s scene q)).
Proof.
  intros Hh Hscene. rewrite saveToHistory_history.
  apply Forall_app. split; [now apply Forall_slice0 | now constructor].
Qed.

Lemma updateDrawing_pen_inv (sq sn : R -> R -> bool) (tool : ShapeType)
    (x y : R) (s : State) (cur : Shape.t) :
  pen_inv s -> currentShape s = Some cur ->
  pen_inv (updateDrawing sq sn tool x y s cur s).
Proof.
  intros (Hsc & Hh & Hcur) Hc. destruct (Hcur cur Hc) as [Hanch Hpath].
  destruct tool; cbn; (split; [exact Hsc | split; [exact Hh |]]);
    intros c Hc'; cbn in Hc'; injection Hc' as <-;
    try (split; [exact Hanch | exact Hpath]).
  (* the pen tool extends the path *)
  split.
  - intros Hty. cbn in Hty. destruct (Hanch Hty) as [rest Hrest].
    rewrite (Hpath Hty) in Hrest. injection Hrest as Hrest.
    exists (rest ++ [Point.mk x y]). cbn. now rewrite Hrest.
  - reflexivity.
Qed.

Lemma finishGesture_pen_inv (tool : ShapeType) (s : State) :
  pen_inv s -> pen_inv (finishGesture tool s s).
Proof.
  intros (Hsc & Hh & Hcur). unfold finishGesture.
  destruct (isDrawing s) eqn:Hd; [destruct (currentShape s) as [cur |] eqn:Hc |].
  - assert (Hnew : Forall pen_anchored (shapes s ++ [cur])).
    { apply Forall_app. split; [exact Hsc |]. constructor; [| constructor].
      now apply Hcur. }
    split; [exact Hnew |]. split; [now apply saveToHistory_pen_inv |].
    intros c Hc'. discriminate.
  - destruct (ShapeType_eqb tool select && JS.truthy (selectedShapeId s)).
    + split; [exact Hsc |]. split; [now apply saveToHistory_pen_inv |].
      intros c Hc'. cbn in Hc'. congruence.
    + split; [exact Hsc |]. split; [exact Hh |].
      intros c Hc'. cbn in Hc'. congruence.
  - destruct (ShapeType_eqb tool select && JS.truthy (selectedShapeId s)).
    + split; [exact Hsc |]. split; [now apply saveToHistory_pen_inv |].
      intros c Hc'. cbn in Hc'. now apply Hcur.
    + split; [exact Hsc |]. split; [exact Hh |].
      intros c Hc'. cbn in Hc'. now apply Hcur.
Qed.

Lemma undo_pen_inv (s q : State) :
  pen_inv s -> pen_inv q -> history q = history s -> pen_inv (state_of (undo s q)).
Proof.
  intros (_ & Hh & _) (Hsc & Hhq & Hcur) Hq. unfold undo.
  destruct (historyIndex s >? 0)%Z; [| exact (conj Hsc (conj Hhq Hcur))].
  destruct (JS.index (history s) (historyIndex s - 1)) as [scene |] eqn:Hi;
    unfold pen_inv; cbn.
  - split; [exact (Forall_index _ _ _ _ Hh Hi) |]. split; assumption.
  - exact (conj Hsc (conj Hhq Hcur)).
Qed.

Lemma redo_pen_inv (s q : State) :
  pen_inv s -> pen_inv q -> history q = history s -> pen_inv (state_of (redo s q)).
Proof.
  intros (_ & Hh & _) (Hsc & Hhq & Hcur) Hq. unfold redo.
  destruct (historyIndex s <? Z.of_nat (length (history s)) - 1)%Z;
    [| exact (conj Hsc (conj Hhq Hcur))].
  destruct (JS.index (history s) (historyIndex s + 1)) as [scene |] eqn:Hi;
    unfold pen_inv; cbn.
  - split; [exact (Forall_index _ _ _ _ Hh Hi) |]. split; assumption.
  - exact (conj Hsc (conj Hhq Hcur)).
Qed.

Lemma handleKeyDown_pen_inv (e : KeyboardEvent) (s : State) :
  pen_inv s -> pen_inv (state_of (handleKeyDown e s)).
Proof.
  intros Hs. unfold handleKeyDown.
  set (q0 := if String.eqb (key e) "Shift" then setIsShiftPressed true s else s).
  assert (Hq0 : pen_inv q0 /\ history q0 = history s).
  { unfold q0. destruct (String.eqb (key e) "Shift"); split; auto. }
  destruct Hq0 as [Hq0 Hhq0].
  set (o := if ctrlKey e || metaKey e then _ else _).
  assert (Ho : pen_inv (state_of o)).
  { unfold o. destruct (ctrlKey e || metaKey e); [| exact Hq0].
    destruct (String.eqb (key e) "z" && negb (shiftKey e)); [now apply undo_pen_inv |].
    destruct (String.eqb (key e) "y" || String.eqb (key e) "z" && shiftKey e);
      [now apply redo_pen_inv | exact Hq0]. }
  destruct o as [q1 | q1]; cbn [andThen state_of] in *; [| exact Ho].
  destruct (String.eqb (key e) "Delete" || String.eqb (key e) "Backspace");
    [| exact Ho].
  destruct (JS.truthy (selectedShapeId s)); [| exact Ho].
  destruct Hs as (Hsc & Hh & _). destruct Ho as (_ & _ & Hcur1).
  cbn. split; [| split].
  - apply Forall_forall. intros shape Hin. apply filter_In in Hin.
    rewrite Forall_forall in Hsc. now apply Hsc.
  - apply saveToHistory_pen_inv; [exact Hh |].
    apply Forall_forall. intros shape Hin. apply filter_In in Hin.
    rewrite Forall_forall in Hsc. now apply Hsc.
  - exact Hcur1.
Qed.

Lemma startDrawing_pen_inv (tool : ShapeType) (now : Z) (x y : R) (q : State) :
  Forall pen_anchored (shapes q) -> Forall (Forall pen_anchored) (history q) ->
  pen_inv (startDrawing tool now x y q).
Proof.
  intros Hsc Hh.
  destruct tool; cbn; (split; [exact Hsc | split; [exact Hh |]]);
    intros c Hc; cbn in Hc; injection Hc as <-;
    try (split; [intros Hty; discriminate | intros Hty; discriminate]).
  (* the pen tool starts a path at the anchor *)
  split; [intros _; now exists [] | reflexivity].
Qed.

(** Every event other than a drag move keeps pen strokes anchored. *)
Lemma step_pen_inv (ev : Desktop.Event) (s : State) :
  pen_inv s -> is_drag_move ev s = false ->
  pen_inv (state_of (Desktop.step ev s)).
Proof.
  intros Hs Hnodrag. destruct ev as [tool now x y | tool x y | tool | tool | e | e];
    cbn [Desktop.step state_of].
  - destruct Hs as (Hsc & Hh & Hcur).
    unfold Desktop.handleMouseDown.
    destruct tool; try (apply startDrawing_pen_inv; assumption).
    destruct (Desktop.topmost x y (shapes s)); exact (conj Hsc (conj Hh Hcur)).
  - cbn in Hnodrag. unfold Desktop.handleMouseMove. rewrite Hnodrag.
    destruct (isDrawing s); [| exact Hs].
    destruct (currentShape s) as [cur |] eqn:Hc; [| exact Hs].
    now apply updateDrawing_pen_inv.
  - now apply finishGesture_pen_inv.
  - unfold Desktop.onMouseLeave. destruct (isDrawing s); [| exact Hs].
    now apply finishGesture_pen_inv.
  - now apply handleKeyDown_pen_inv.
  - unfold handleKeyUp. destruct (String.eqb (key e) "Shift"); [| exact Hs].
    destruct Hs as (Hsc & Hh & Hcur). exact (conj Hsc (conj Hh Hcur)).
Qed.

(** ** The history invariant under the events of the canvas *)

Local Open Scope Z_scope.

Lemma finishGesture_history_ok (tool : ShapeType) (s : State) :
  history_ok s -> history_ok (finishGesture tool s s).
Proof.
  intros Hs. unfold finishGesture.
  destruct (isDrawing s); [destruct (currentShape s) |].
  - exact (saveToHistory_ok s _ _ Hs).
  - destruct (ShapeType_eqb tool select && JS.truthy (selectedShapeId s));
      [exact (saveToHistory_ok s _ _ Hs) | exact Hs].
  - destruct (ShapeType_eqb tool select && JS.truthy (selectedShapeId s));
      [exact (saveToHistory_ok s _ _ Hs) | exact Hs].
Qed.

Lemma handleKeyDown_history_ok (e : KeyboardEvent) (s : State) :
  history_ok s -> exists s', handleKeyDown e s = Done s' /\ history_ok s'.
Proof.
  intros Hs. unfold handleKeyDown.
  set (q0 := if String.eqb (key e) "Shift" then setIsShiftPressed true s else s).
  assert (Hq0 : history q0 = history s /\ historyIndex q0 = historyIndex s)
    by (unfold q0; destruct (String.eqb (key e) "Shift"); split; reflexivity).
  destruct Hq0 as [Hh0 Hi0].
  set (o := if ctrlKey e || metaKey e then _ else _).
  assert (Ho : exists q1, o = Done q1 /\ history_ok q1).
  { assert (Hq0ok : history_ok q0) by (unfold history_ok; now rewrite Hh0, Hi0).
    unfold o. destruct (ctrlKey e || metaKey e); [| now exists q0].
    destruct (String.eqb (key e) "z" && negb (shiftKey e)).
    - destruct (undo_ok s q0 Hs Hh0) as (q' & -> & Hh & Hi).
      exists q'. split; [reflexivity |].
      destruct Hs as [Hidx H0]. unfold history_ok. rewrite Hh, Hi, Hi0.
      split; [| exact H0]. destruct (Z.gtb_spec (historyIndex s) 0); lia.
    - destruct (String.eqb (key e) "y" || String.eqb (key e) "z" && shiftKey e);
        [| now exists q0].
      destruct (redo_ok s q0 Hs Hh0) as (q' & -> & Hh & Hi).
      exists q'. split; [reflexivity |].
      destruct Hs as [Hidx H0]. unfold history_ok. rewrite Hh, Hi, Hi0.
      split; [| exact H0].
      destruct (Z.ltb_spec (historyIndex s) (Z.of_nat (length (history s)) - 1)); lia. }
  destruct Ho as (q1 & -> & Hq1). cbn [andThen].
  destruct (String.eqb (key e) "Delete" || String.eqb (key e) "Backspace");
    [| now exists q1].
  destruct (JS.truthy (selectedShapeId s)); [| now exists q1].
  eexists. split; [reflexivity |]. exact (saveToHistory_ok s _ _ Hs).
Qed.

Lemma startDrawing_history_ok (tool : ShapeType) (now : Z) (x y : R) (q : State) :
  history_ok q -> history_ok (startDrawing tool now x y q).
Proof. intros Hq. destruct tool; exact Hq. Qed.

Lemma updateDrawing_history_ok (sq sn : R -> R -> bool) (tool : ShapeType)
    (x y : R) (s : State) (cur : Shape.t) :
  history_ok s -> history_ok (updateDrawing sq sn tool x y s cur s).
Proof. intros Hs. destruct tool; exact Hs. Qed.

(** On the mouse-only canvas no handler ever throws, and the history stays
    well-formed whatever the host sends. *)
Lemma desktop_step_ok (ev : Desktop.Event) (s : State) :
  history_ok s -> exists s', Desktop.step ev s = Done s' /\ history_ok s'.
Proof.
  intros Hs. destruct ev as [tool now x y | tool x y | tool | tool | e | e];
    cbn [Desktop.step]; try (eexists; split; [reflexivity |]).
  - unfold Desktop.handleMouseDown.
    destruct tool; try (now apply startDrawing_history_ok).
    destruct (Desktop.topmost x y (shapes s)); exact Hs.
  - unfold Desktop.handleMouseMove.
    destruct (ShapeType_eqb tool select && JS.truthy (selectedShapeId s)
              && negb (isDrawing s)); [exact Hs |].
    destruct (isDrawing s); [| exact Hs].
    destruct (currentShape s); [| exact Hs].
    now apply updateDrawing_history_ok.
  - now apply finishGesture_history_ok.
  - unfold Desktop.onMouseLeave. destruct (isDrawing s); [| exact Hs].
    now apply finishGesture_history_ok.
  - now apply handleKeyDown_history_ok.
  - unfold handleKeyUp. destruct (String.eqb (key e) "Shift"); exact Hs.
Qed.

Lemma desktop_run_ok (evs : list Desktop.Event) (s : State) :
  history_ok s -> history_ok (Desktop.run evs s).
Proof.
  revert s. induction evs as [| ev rest IH]; intros s Hs; cbn [Desktop.run];
    [exact Hs |].
  apply IH. destruct (desktop_step_ok ev s Hs) as (s' & -> & Hs'). exact Hs'.
Qed.

(** On the touch-enabled canvas a handler throws only when it is given the
    bare object, before any update; the history stays well-formed. *)
Lemma touch_step_ok (ev : Touch.Event) (s : State) :
  history_ok s -> history_ok (state_of (Touch.step ev s)).
Proof.
  intros Hs.
  destruct ev as [tool now touch x y | tool touch x y | tool touch x y
                 | tool | tool | e | e | mobile]; cbn [Touch.step].
  - unfold Touch.handlePointerDown, Touch.eventAt.
    assert (Hsel : forall q, history_ok q ->
                     history_ok (Touch.handleShapeSelection x y s q)).
    { intros q Hq. unfold Touch.handleShapeSelection.
      destruct (find _ _); exact Hq. }
    destruct touch;
      destruct (isMobile s && _ && _); cbn [state_of];
      try (now apply Hsel);
      destruct (isMobile s && _); destruct tool; cbn [state_of];
      try (now apply Hsel); now apply startDrawing_history_ok.
  - unfold Touch.handlePointerMove, Touch.eventAt.
    destruct touch;
      (destruct (ShapeType_eqb tool select && JS.truthy (selectedShapeId s)
                 && negb (isDrawing s)); [exact Hs |]);
      (destruct (isDrawing s); [| exact Hs]);
      (destruct (currentShape s); [| exact Hs]);
      now apply updateDrawing_history_ok.
  - unfold Touch.handlePointerUp, Touch.eventAt.
    destruct touch; now apply finishGesture_history_ok.
  - unfold Touch.onMouseLeave. destruct (isDrawing s); exact Hs.
  - unfold Touch.onTouchCancel. destruct (isDrawing s); exact Hs.
  - destruct (isMobile s); [exact Hs |].
    destruct (handleKeyDown_history_ok e s Hs) as (s' & -> & Hs'). exact Hs'.
  - destruct (isMobile s); [exact Hs |].
    unfold handleKeyUp. cbn [state_of].
    destruct (String.eqb (key e) "Shift"); exact Hs.
  - exact Hs.
Qed.

Lemma touch_run_ok (evs : list Touch.Event) (s : State) :
  history_ok s -> history_ok (Touch.run evs s).
Proof.
  revert s. induction evs as [| ev rest IH]; intros s Hs; cbn [Touch.run];
    [exact Hs |].
  now apply IH, touch_step_ok.
Qed.

(** * Further properties of the code *)

(** ** Selection *)

Local Open Scope R_scope.

(** The backwards loop over the scene stops at the last element that passes
    the test. *)
Lemma find_rev_last {A : Type} (f : A -> bool) (l : list A) :
  match find f (rev l) with
  | Some a =>
      exists below above,
        l = below ++ a :: above /\ f a = true
        /\ Forall (fun o => f o = false) above
  | None => Forall (fun o => f o = false) l
  end.
Proof.
  induction l as [| b l IH] using rev_ind; cbn; [constructor |].
  rewrite rev_app_distr. cbn.
  destruct (f b) eqn:Hb.
  - exists l, []. repeat split; auto.
  - destruct (find f (rev l)) as [a |].
    + destruct IH as (below & above & -> & Ha & Habove).
      exists below, (above ++ [b]). split; [now rewrite <- app_assoc |].
      split; [exact Ha |]. apply Forall_app. split; [exact Habove | now constructor].
    + apply Forall_app. split; [exact IH | now constructor].
Qed.

(** X1.  A press with the select tool picks the topmost shape under the
    pointer: the selected id is that of the last shape of the scene that the
    hit test accepts, the drag offset is the pointer minus its anchor, and
    when no shape is hit the selection is cleared.  The scene, the history
    and the shape in progress are not touched.  Both variants do so, each
    with its own hit test. *)
Theorem press_selects_topmost (now : Z) (x y : R) (s : State) :
  picks_topmost (Desktop.isInsideShape x y) x y s
    (Desktop.handleMouseDown select now x y s)
  /\ forall touch, exists s',
       Touch.handlePointerDown select now (Touch.eventAt touch x y) s = Done s'
       /\ picks_topmost (Touch.isInsideShape (isMobile s) x y) x y s s'.
Proof.
  split.
  - unfold picks_topmost, Desktop.handleMouseDown, Desktop.topmost.
    pose proof (find_rev_last (Desktop.isInsideShape x y) (shapes s)) as Hlast.
    destruct (find (Desktop.isInsideShape x y) (rev (shapes s))) as [sh |];
      cbn; repeat split; auto.
  - intros touch.
    pose proof (find_rev_last (Touch.isInsideShape (isMobile s) x y) (shapes s)) as Hlast.
    unfold picks_topmost, Touch.handlePointerDown, Touch.eventAt, Touch.handleShapeSelection.
    destruct touch;
      destruct (isMobile s && _ && _);
      try destruct (isMobile s && _);
      (eexists; split; [reflexivity |]);
      destruct (find (Touch.isInsideShape (isMobile s) x y) (rev (shapes s))) as [sh |];
      cbn; repeat split; auto.
Qed.

(** X2.  On a mobile device a touch that comes less than half a second after
    the recorded one is a double tap: whatever the tool is, the press does
    exactly what a mouse press with the select tool does.  In particular no
    drawing starts and the time of the tap is not recorded. *)
Theorem double_tap_selects (tool : ShapeType) (now : Z) (x y : R) (s : State) :
  isMobile s = true ->
  (0 < now - lastTouchTime s < 500)%Z ->
  Touch.handlePointerDown tool now (Touch.OfTouch x y) s
  = Touch.handlePointerDown select now (Touch.OfMouse x y) s.
Proof.
  intros Hmob Htap. unfold Touch.handlePointerDown.
  rewrite Hmob. cbn [Touch.hasTouches andb].
  assert (Ht : ((now - lastTouchTime s <? 500)%Z && (now - lastTouchTime s >? 0)%Z) = true).
  { apply andb_true_iff. split; [apply Z.ltb_lt | apply Z.gtb_lt]; lia. }
  now rewrite Ht.
Qed.

Lemma double_tap_selects_witness :
  Touch.handlePointerDown rectangle 1300 (Touch.OfTouch 5 5)
    (setLastTouchTime 1000 (setIsMobile true initialState))
  = Touch.handlePointerDown select 1300 (Touch.OfMouse 5 5)
      (setLastTouchTime 1000 (setIsMobile true initialState)).
Proof.
  apply (double_tap_selects rectangle 1300 5 5
           (setLastTouchTime 1000 (setIsMobile true initialState))).
  - reflexivity.
  - vm_compute. split; reflexivity.
Defined.



Lemma existsb_find {A : Type} (f : A -> bool) (l : list A) :
  existsb f l = true <-> exists a, find f l = Some a.
Proof.
  induction l as [| b l IH]; cbn.
  - split; [discriminate | intros [a Ha]; discriminate].
  - destruct (f b); cbn; [split; eauto | exact IH].
Qed.

(** X4.  The cursor shown over the canvas tells what a press would do: it is
    the move cursor exactly when the select tool is active and a press at
    that point would select a shape.  The touch-enabled canvas does the same
    off mobile devices and never shows the move cursor on them. *)
Theorem cursor_announces_selection (tool : ShapeType) (x y : R) (s : State) :
  (Desktop.getCursorStyle tool x y s = "move"%string
   <-> tool = select /\ exists sh, Desktop.topmost x y (shapes s) = Some sh)
  /\ (Touch.getCursorStyle tool x y s = "move"%string
      <-> isMobile s = false /\ tool = select
          /\ exists sh,
               find (Touch.isInsideShape (isMobile s) x y) (rev (shapes s)) = Some sh).
Proof.
  split.
  - unfold Desktop.getCursorStyle, Desktop.topmost.
    destruct tool; try (split; [discriminate | intros [H _]; discriminate]).
    rewrite <- existsb_find.
    destruct (existsb _ _); split; auto; try discriminate.
    intros [_ H]. discriminate.
  - unfold Touch.getCursorStyle.
    destruct (isMobile s) eqn:Hmob;
      [split; [discriminate | intros [H _]; discriminate] |].
    destruct tool; try (split; [discriminate | intros (_ & H & _); discriminate]).
    rewrite <- existsb_find.
    destruct (existsb _ _); split; auto; try discriminate.
    intros (_ & _ & H). discriminate.
Qed.

(** ** More on hit testing *)

Lemma closerThan_mono (t t' : R) (d : option R) :
  t <= t' -> closerThan t d = true -> closerThan t' d = true.
Proof.
  intros Ht. destruct d as [d |]; cbn; [| discriminate].
  rewrite !ltb_true. lra.
Qed.

Lemma nearPath_mono (t t' x y : R) (path : list Point.t) :
  t <= t' -> nearPath t x y path = true -> nearPath t' x y path = true.
Proof.
  intros Ht. induction path as [| p rest IH]; cbn; [discriminate |].
  destruct rest as [| q rest']; [discriminate |].
  destruct (closerThan t _) eqn:Hc.
  - intros _. now rewrite (closerThan_mono t t' _ Ht Hc).
  - intros Hrest. destruct (closerThan t' _); [reflexivity | now apply IH].
Qed.

Lemma box_test_mono (t t' x y lx hx ly hy : R) :
  t <= t' ->
  JS.geb x (lx - t) && JS.leb x (hx + t) && JS.geb y (ly - t) && JS.leb y (hy + t) = true ->
  JS.geb x (lx - t') && JS.leb x (hx + t') && JS.geb y (ly - t') && JS.leb y (hy + t')
  = true.
Proof.
  intros Ht. rewrite !andb_true_iff, !geb_true, !leb_true. lra.
Qed.

(** X5.  A wider tolerance never loses a hit: every point that selects a
    shape in the mouse-only canvas selects it in the touch-enabled canvas,
    and every point that selects it there off a mobile device selects it on
    one. *)
Theorem wider_tolerance_hits_more (x y : R) (shape : Shape.t) :
  (Desktop.isInsideShape x y shape = true -> Touch.isInsideShape false x y shape = true)
  /\ (Touch.isInsideShape false x y shape = true
      -> Touch.isInsideShape true x y shape = true).
Proof.
  unfold Desktop.isInsideShape, Touch.isInsideShape. cbv zeta.
  destruct (Shape.type shape); split; try (intros H; exact H); try discriminate.
  - (* rectangle, from no margin to 8 *)
    intros H. apply (box_test_mono 0 8); [lra |].
    now rewrite !Rminus_0_r, !Rplus_0_r.
  - intros H. apply (box_test_mono 8 15); [lra | exact H].
  - (* circle *)
    rewrite !leb_true. lra.
  - rewrite !leb_true. lra.
  - (* line *)
    apply closerThan_mono. lra.
  - (* arrow *)
    apply closerThan_mono. lra.
  - (* pen *)
    destruct (Shape.path shape); [apply nearPath_mono; lra | discriminate].
Qed.

(** The point of a proper segment at the clamped projection parameter is at
    least as close as any other point of the segment. *)
Lemma projection_is_closest (x y x1 y1 x2 y2 u : R) :
  (x2 - x1) * (x2 - x1) + (y2 - y1) * (y2 - y1) <> 0 ->
  0 <= u <= 1 ->
  let t := ((x - x1) * (x2 - x1) + (y - y1) * (y2 - y1))
           / ((x2 - x1) * (x2 - x1) + (y2 - y1) * (y2 - y1)) in
  distance x y (x1 + clamp01 t * (x2 - x1)) (y1 + clamp01 t * (y2 - y1))
  <= distance x y (along u x1 x2) (along u y1 y2).
Proof.
  intros HL Hu t. unfold distance, along. apply sqrt_le_1_alt.
  replace (x - (x1 + clamp01 t * (x2 - x1)))
    with ((x - x1) - clamp01 t * (x2 - x1)) by ring.
  replace (y - (y1 + clamp01 t * (y2 - y1)))
    with ((y - y1) - clamp01 t * (y2 - y1)) by ring.
  replace (x - (x1 + u * (x2 - x1))) with ((x - x1) - u * (x2 - x1)) by ring.
  replace (y - (y1 + u * (y2 - y1))) with ((y - y1) - u * (y2 - y1)) by ring.
  assert (HLpos : 0 < (x2 - x1) * (x2 - x1) + (y2 - y1) * (y2 - y1)).
  { clear t.
    pose proof (Rle_0_sqr (x2 - x1)) as Hc. pose proof (Rle_0_sqr (y2 - y1)) as Hd.
    unfold Rsqr in Hc, Hd. lra. }
  apply closest_on_segment; [exact HLpos | reflexivity | exact Hu].
Qed.

(** A point of the segment is at distance zero from it. *)
Lemma on_segment_distance_zero (u x1 y1 x2 y2 : R) :
  0 <= u <= 1 ->
  pointToLineDistance (along u x1 x2) (along u y1 y2) x1 y1 x2 y2 = Some 0.
Proof.
  intros Hu.
  destruct (Req_dec_T ((x2 - x1) * (x2 - x1) + (y2 - y1) * (y2 - y1)) 0) as [HL0 | HL].
  - rewrite pointToLineDistance_degenerate by exact HL0.
    apply len_sq_zero in HL0. destruct HL0 as [HC HD].
    unfold along. rewrite HC, HD, !Rmult_0_r, !Rplus_0_r.
    now rewrite distance_self.
  - rewrite pointToLineDistance_proper by exact HL. cbv zeta. f_equal.
    apply Rle_antisym; [| apply distance_nonneg].
    eapply Rle_trans; [apply (projection_is_closest _ _ _ _ _ _ u HL Hu) |].
    rewrite distance_self. lra.
Qed.

(** X6.  Every point of the segment of a line or an arrow selects it, the two
    end points included, in both variants.  The segment runs from the anchor
    to [(x2, y2)], where an end coordinate that is missing counts as 0. *)
Theorem segment_points_are_hit (mobile : bool) (u : R) (shape : Shape.t) :
  Shape.type shape = line \/ Shape.type shape = arrow ->
  0 <= u <= 1 ->
  let px := along u (Shape.x shape) (JS.orZero (Shape.x2 shape)) in
  let py := along u (Shape.y shape) (JS.orZero (Shape.y2 shape)) in
  Desktop.isInsideShape px py shape = true
  /\ Touch.isInsideShape mobile px py shape = true.
Proof.
  intros Hty Hu px py.
  assert (H8 : JS.ltb 0 8 = true) by (apply ltb_true; lra).
  assert (Ht : JS.ltb 0 (if mobile then 15 else 8) = true)
    by (apply ltb_true; destruct mobile; lra).
  unfold Desktop.isInsideShape, Touch.isInsideShape. cbv zeta.
  destruct Hty as [-> | ->]; unfold px, py;
    rewrite on_segment_distance_zero by exact Hu; cbn [closerThan]; auto.
Qed.

Lemma segment_points_are_hit_witness :
  let px := along (1 / 2) (Shape.x untouchedLine) (JS.orZero (Shape.x2 untouchedLine)) in
  let py := along (1 / 2) (Shape.y untouchedLine) (JS.orZero (Shape.y2 untouchedLine)) in
  Desktop.isInsideShape px py untouchedLine = true
  /\ Touch.isInsideShape true px py untouchedLine = true.
Proof.
  apply (segment_points_are_hit true (1 / 2) untouchedLine).
  - left. reflexivity.
  - lra.
Defined.

Lemma nearPath_skip (t x y : R) (pre rest : list Point.t) :
  nearPath t x y rest = true -> nearPath t x y (pre ++ rest) = true.
Proof.
  intros Hrest. induction pre as [| a pre IH]; cbn [app]; [exact Hrest |].
  cbn [nearPath]. destruct (pre ++ rest) as [| b l] eqn:E.
  - destruct pre; [cbn in E; subst; discriminate | discriminate].
  - destruct (closerThan t _); [reflexivity | exact IH].
Qed.

(** X7.  Every point of every segment between two consecutive points of a
    pen stroke selects the stroke, in both variants. *)
Theorem stroke_points_are_hit (mobile : bool) (u : R) (shape : Shape.t)
    (before after : list Point.t) (p q : Point.t) :
  Shape.type shape = pen ->
  Shape.path shape = Some (before ++ p :: q :: after) ->
  0 <= u <= 1 ->
  let px := along u (Point.x p) (Point.x q) in
  let py := along u (Point.y p) (Point.y q) in
  Desktop.isInsideShape px py shape = true
  /\ Touch.isInsideShape mobile px py shape = true.
Proof.
  intros Hty Hpath Hu px py.
  assert (Hnear : forall t, 0 < t ->
            nearPath t px py (before ++ p :: q :: after) = true).
  { intros t Ht. apply nearPath_skip. cbn [nearPath]. unfold px, py.
    rewrite on_segment_distance_zero by exact Hu. cbn [closerThan].
    assert (H0 : JS.ltb 0 t = true) by now apply ltb_true.
    now rewrite H0. }
  unfold Desktop.isInsideShape, Touch.isInsideShape. cbv zeta.
  rewrite Hty, Hpath. split; apply Hnear; [| destruct mobile]; lra.
Qed.

Lemma stroke_points_are_hit_witness :
  let px := along (1 / 2) 0 10 in
  let py := along (1 / 2) 0 0 in
  Desktop.isInsideShape px py penStroke = true
  /\ Touch.isInsideShape false px py penStroke = true.
Proof.
  apply (stroke_points_are_hit false (1 / 2) penStroke [] [] (Point.mk 0 0) (Point.mk 10 0)).
  - reflexivity.
  - reflexivity.
  - lra.
Defined.

(** X8.  Some shapes can never be selected: a pen stroke with fewer than two
    points, and a shape of type [text] or [select], fail the hit test at
    every point in both variants. *)
Theorem unselectable_shapes (mobile : bool) (x y : R) (shape : Shape.t) :
  Shape.type shape = text \/ Shape.type shape = select
  \/ (Shape.type shape = pen
      /\ (Shape.path shape = None \/ Shape.path shape = Some []
          \/ exists p, Shape.path shape = Some [p])) ->
  Desktop.isInsideShape x y shape = false
  /\ Touch.isInsideShape mobile x y shape = false.
Proof.
  unfold Desktop.isInsideShape, Touch.isInsideShape. cbv zeta.
  intros [-> | [-> | (-> & [-> | [-> | [p ->]]])]]; split; reflexivity.
Qed.

Lemma unselectable_shapes_witness :
  Desktop.isInsideShape 3 4 dot = false
  /\ Touch.isInsideShape true 3 4 dot = false.
Proof.
  apply (unselectable_shapes true 3 4 dot).
  right. right. split; [reflexivity |]. right. right. now exists (Point.mk 3 4).
Defined.

(** ** Drawing *)

(** The side given to a constrained rectangle. *)
Lemma square_side (d e : R) :
  let size := Rmax (Rabs d) (Rabs e) in
  let w := if JS.ltb d 0 then - size else size in
  Rabs w = size /\ (d < 0 -> w < 0) /\ (0 <= d -> 0 <= w)
  /\ Rmin 0 w <= d <= Rmax 0 w.
Proof.
  cbv zeta.
  destruct (JS.ltb d 0) eqn:Hd; [apply ltb_true in Hd | apply ltb_false in Hd];
    repeat split; try (intros; exfalso; lra);
    try intros _; split_minmax; split_abs; lra.
Qed.

(** X9.  While the shift key is held, a rectangle in progress is a square:
    the absolute values of its width and height are both the larger of the
    horizontal and vertical distances from the press to the pointer, and
    each keeps the sign of its distance (positive for zero).  Both variants
    do the same. *)
Theorem shift_makes_square (touch : bool) (x y : R) (s : State) (cur : Shape.t) :
  Drawing s cur ->
  isShiftPressed s = true ->
  let dx := x - startX s in
  let dy := y - startY s in
  let size := Rmax (Rabs dx) (Rabs dy) in
  exists w h,
    Desktop.handleMouseMove rectangle x y s
    = setCurrentShape (Some (Shape.with_size w h cur)) s
    /\ Touch.handlePointerMove rectangle (Touch.eventAt touch x y) s
       = Done (setCurrentShape (Some (Shape.with_size w h cur)) s)
    /\ Rabs w = size /\ Rabs h = size
    /\ (dx < 0 -> w < 0) /\ (0 <= dx -> 0 <= w)
    /\ (dy < 0 -> h < 0) /\ (0 <= dy -> 0 <= h).
Proof.
  intros [Hdraw Hcur] Hshift dx dy size.
  destruct (square_side dx dy) as (Hw & Hwn & Hwp & _).
  pose proof (square_side dy dx) as Hside. cbv zeta in Hside.
  rewrite (Rmax_comm (Rabs dy)) in Hside.
  destruct Hside as (Hh & Hhn & Hhp & _).
  do 2 eexists. split; [| split].
  - unfold Desktop.handleMouseMove. rewrite Hdraw, Hcur.
    cbn [ShapeType_eqb andb updateDrawing]. rewrite Hshift. reflexivity.
  - unfold Touch.handlePointerMove, Touch.eventAt.
    destruct touch; rewrite Hdraw, Hcur;
      cbn [ShapeType_eqb andb updateDrawing]; rewrite Hshift; reflexivity.
  - fold dx dy. repeat split; assumption.
Qed.

(** A rectangle is being drawn from (0,0) with the shift key held. *)
Lemma shift_makes_square_witness :
  let s := setIsShiftPressed true
             (Desktop.handleMouseDown rectangle 1 0 0 initialState) in
  let cur := Shape.fresh "1" rectangle 0 0 None in
  let dx := 70 - startX s in
  let dy := 30 - startY s in
  let size := Rmax (Rabs dx) (Rabs dy) in
  exists w h,
    Desktop.handleMouseMove rectangle 70 30 s
    = setCurrentShape (Some (Shape.with_size w h cur)) s
    /\ Touch.handlePointerMove rectangle (Touch.eventAt false 70 30) s
       = Done (setCurrentShape (Some (Shape.with_size w h cur)) s)
    /\ Rabs w = size /\ Rabs h = size
    /\ (dx < 0 -> w < 0) /\ (0 <= dx -> 0 <= w)
    /\ (dy < 0 -> h < 0) /\ (0 <= dy -> 0 <= h).
Proof.
  apply (shift_makes_square false 70 30
           (setIsShiftPressed true (Desktop.handleMouseDown rectangle 1 0 0 initialState))
           (Shape.fresh "1" rectangle 0 0 None)).
  - split; reflexivity.
  - reflexivity.
Defined.





(** [Math.round] moves its argument by at most one half. *)
Lemma round_near (v : R) : Rabs (v - JS.round v) <= / 2.
Proof.
  unfold JS.round.
  destruct (base_Int_part (v + / 2)) as [Hle Hgt].
  split_abs; lra.
Qed.

(** A point at angle [a] and distance [d] from [(sx, sy)]. *)
Lemma polar_distance (sx sy a d : R) :
  0 <= d -> distance (sx + cos a * d) (sy + sin a * d) sx sy = d.
Proof.
  intros Hd. unfold distance.
  replace (sx + cos a * d - sx) with (cos a * d) by ring.
  replace (sy + sin a * d - sy) with (sin a * d) by ring.
  rewrite !Rsqr_mult.
  replace (Rsqr (cos a) * Rsqr d + Rsqr (sin a) * Rsqr d)
    with ((Rsqr (sin a) + Rsqr (cos a)) * Rsqr d) by ring.
  rewrite sin2_cos2, Rmult_1_l. now apply sqrt_Rsqr.
Qed.

(** X12.  While the shift key is held, the end of a line in progress is
    snapped to a multiple of 45 degrees about the press: it lies at the
    nearest multiple of PI/4 to the direction of the pointer (at most PI/8
    away from it) and exactly as far from the press as the pointer is.
    Both variants do the same. *)
Theorem shift_snaps_line (touch : bool) (x y : R) (s : State) (cur : Shape.t) :
  Drawing s cur ->
  isShiftPressed s = true ->
  let d := distance x y (startX s) (startY s) in
  let angle := JS.atan2 (y - startY s) (x - startX s) in
  exists (k : Z) (ex ey : R),
    Desktop.handleMouseMove line x y s
    = setCurrentShape (Some (Shape.with_end ex ey cur)) s
    /\ Touch.handlePointerMove line (Touch.eventAt touch x y) s
       = Done (setCurrentShape (Some (Shape.with_end ex ey cur)) s)
    /\ ex = startX s + cos (IZR k * (PI / 4)) * d
    /\ ey = startY s + sin (IZR k * (PI / 4)) * d
    /\ Rabs (angle - IZR k * (PI / 4)) <= PI / 8
    /\ distance ex ey (startX s) (startY s) = d.
Proof.
  intros [Hdraw Hcur] Hshift d angle.
  exists (Int_part (angle / (PI / 4) + / 2)).
  do 2 eexists. split; [| split; [| split; [| split; [| split]]]].
  - unfold Desktop.handleMouseMove. rewrite Hdraw, Hcur.
    cbn [ShapeType_eqb andb updateDrawing]. rewrite Hshift. reflexivity.
  - unfold Touch.handlePointerMove, Touch.eventAt.
    destruct touch; rewrite Hdraw, Hcur;
      cbn [ShapeType_eqb andb updateDrawing]; rewrite Hshift; reflexivity.
  - unfold JS.round, JS.hypot. now rewrite distance_products.
  - unfold JS.round, JS.hypot. now rewrite distance_products.
  - pose proof (round_near (angle / (PI / 4))) as Hr. unfold JS.round in Hr.
    pose proof PI_RGT_0 as Hpi.
    set (k := IZR (Int_part (angle / (PI / 4) + / 2))) in *.
    replace (angle - k * (PI / 4)) with ((angle / (PI / 4) - k) * (PI / 4))
      by (field; lra).
    rewrite Rabs_mult, (Rabs_right (PI / 4)) by lra.
    replace (PI / 8) with (/ 2 * (PI / 4)) by field.
    apply Rmult_le_compat_r; [lra | exact Hr].
  - unfold JS.round, JS.hypot. rewrite distance_products.
    apply polar_distance, distance_nonneg.
Qed.

Lemma shift_snaps_line_witness :
  let s := setIsShiftPressed true (Desktop.handleMouseDown line 1 0 0 initialState) in
  let cur := Shape.fresh "1" line 0 0 None in
  let d := distance 100 10 (startX s) (startY s) in
  let angle := JS.atan2 (10 - startY s) (100 - startX s) in
  exists (k : Z) (ex ey : R),
    Desktop.handleMouseMove line 100 10 s
    = setCurrentShape (Some (Shape.with_end ex ey cur)) s
    /\ Touch.handlePointerMove line (Touch.eventAt true 100 10) s
       = Done (setCurrentShape (Some (Shape.with_end ex ey cur)) s)
    /\ ex = startX s + cos (IZR k * (PI / 4)) * d
    /\ ey = startY s + sin (IZR k * (PI / 4)) * d
    /\ Rabs (angle - IZR k * (PI / 4)) <= PI / 8
    /\ distance ex ey (startX s) (startY s) = d.
Proof.
  apply (shift_snaps_line true 100 10
           (setIsShiftPressed true (Desktop.handleMouseDown line 1 0 0 initialState))
           (Shape.fresh "1" line 0 0 None)).
  - split; reflexivity.
  - reflexivity.
Defined.

(** What a move does to the shape in progress, whatever the tool is. *)
Lemma move_while_drawing (tool : ShapeType) (x y : R) (s : State) (c : Shape.t) :
  isDrawing s = true -> currentShape s = Some c ->
  let s' := Desktop.handleMouseMove tool x y s in
  exists c',
    currentShape s' = Some c'
    /\ Shape.id c' = Shape.id c /\ Shape.type c' = Shape.type c
    /\ Shape.x c' = Shape.x c /\ Shape.y c' = Shape.y c
    /\ (tool = pen ->
        Shape.path c' = Some (penPath s ++ [Point.mk x y])
        /\ penPath s' = penPath s ++ [Point.mk x y])
    /\ isDrawing s' = true /\ shapes s' = shapes s
    /\ history s' = history s /\ historyIndex s' = historyIndex s.
Proof.
  intros Hdraw Hcur. cbv zeta. unfold Desktop.handleMouseMove.
  rewrite Hdraw, Hcur, !andb_false_r.
  destruct tool; cbn; eexists; (split; [reflexivity |]);
    cbn; repeat split; auto; discriminate.
Qed.

Lemma moves_while_drawing (tool : ShapeType) (pts : list Point.t) (s : State) (c : Shape.t) :
  isDrawing s = true -> currentShape s = Some c ->
  let s' := Desktop.run (movesThrough tool pts) s in
  exists c',
    currentShape s' = Some c'
    /\ Shape.id c' = Shape.id c /\ Shape.type c' = Shape.type c
    /\ Shape.x c' = Shape.x c /\ Shape.y c' = Shape.y c
    /\ (tool = pen -> Shape.path c = Some (penPath s) ->
        Shape.path c' = Some (penPath s ++ pts) /\ penPath s' = penPath s ++ pts)
    /\ isDrawing s' = true /\ shapes s' = shapes s
    /\ history s' = history s /\ historyIndex s' = historyIndex s.
Proof.
  revert s c. induction pts as [| p pts IH]; intros s c Hdraw Hcur; cbv zeta.
  - exists c. cbn. rewrite app_nil_r. repeat split; auto.
  - cbn [movesThrough map Desktop.run Desktop.step state_of].
    destruct (move_while_drawing tool (Point.x p) (Point.y p) s c Hdraw Hcur)
      as (c1 & Hc1 & Hid1 & Hty1 & Hx1 & Hy1 & Hpen1 & Hd1 & Hs1 & Hh1 & Hi1).
    destruct (IH _ c1 Hd1 Hc1)
      as (c' & Hc' & Hid & Hty & Hx & Hy & Hpen & Hd & Hs & Hh & Hi).
    exists c'. split; [exact Hc' |].
    split; [congruence |]. split; [congruence |].
    split; [congruence |]. split; [congruence |].
    split.
    { intros Htool Hpath. destruct (Hpen1 Htool) as [Hp1 Hpp1].
      rewrite <- Hpp1 in Hp1.
      destruct (Hpen Htool Hp1) as [Hp Hpp].
      fold (movesThrough tool pts).
      rewrite Hp, Hpp, Hpp1, <- app_assoc. destruct p. split; reflexivity. }
    fold (movesThrough tool pts).
    split; [exact Hd |]. split; [congruence |]. split; congruence.
Qed.

(** X13.  A pen stroke records the pointer: after a press with the pen at
    [(x, y)] and moves through any points, from any state, the shape in
    progress is a pen stroke anchored at the press whose path is the press
    followed by the points of the moves, in order; the path only grows.
    The scene and the history are untouched while the stroke is drawn. *)
Theorem pen_stroke_records_pointer (now : Z) (x y : R) (pts : list Point.t) (s : State) :
  let s' := Desktop.run (Desktop.MouseDown pen now x y :: movesThrough pen pts) s in
  exists c,
    currentShape s' = Some c
    /\ Shape.type c = pen
    /\ Shape.id c = JS.toString now
    /\ Shape.x c = x /\ Shape.y c = y
    /\ Shape.path c = Some (Point.mk x y :: pts)
    /\ shapes s' = shapes s /\ history s' = history s
    /\ historyIndex s' = historyIndex s.
Proof.
  cbv zeta. cbn [Desktop.run Desktop.step state_of].
  set (s1 := Desktop.handleMouseDown pen now x y s).
  destruct (moves_while_drawing pen pts s1
              (Shape.fresh (JS.toString now) pen x y (Some [Point.mk x y]))
              eq_refl eq_refl)
    as (c & Hc & Hid & Hty & Hx & Hy & Hpen & _ & Hs & Hh & Hi).
  destruct (Hpen eq_refl eq_refl) as [Hpath _].
  exists c. repeat split; auto.
Qed.

(** X14.  A complete gesture with a drawing tool (press, any moves, release)
    adds exactly one shape at the end of the scene, from any state: its id
    is the time of the press, its type is the tool, its anchor is the point
    of the press.  The new scene is committed once, after the entries up to
    the cursor, and the machine is idle again.  Without a move the shape is
    the one made by the press. *)
Theorem drawing_gesture_adds_one_shape (tool : ShapeType) (now : Z) (x y : R)
    (pts : list Point.t) (s : State) :
  tool <> select ->
  let s' := Desktop.run (drawGesture tool now x y pts) s in
  exists c,
    shapes s' = shapes s ++ [c]
    /\ Shape.id c = JS.toString now
    /\ Shape.type c = tool
    /\ Shape.x c = x /\ Shape.y c = y
    /\ history s' = JS.slice0 (history s) (historyIndex s + 1) ++ [shapes s ++ [c]]
    /\ historyIndex s' = (Z.of_nat (length (history s')) - 1)%Z
    /\ Idle s'
    /\ (pts = [] ->
        c = Shape.fresh (JS.toString now) tool x y
              (match tool with pen => Some [Point.mk x y] | _ => None end)).
Proof.
  intros Htool. cbv zeta. unfold drawGesture.
  cbn [Desktop.run Desktop.step state_of]. rewrite run_app.
  set (s1 := Desktop.handleMouseDown tool now x y s).
  set (c0 := Shape.fresh (JS.toString now) tool x y
               (match tool with pen => Some [Point.mk x y] | _ => None end)).
  assert (Hs1 : isDrawing s1 = true /\ currentShape s1 = Some c0
                /\ shapes s1 = shapes s /\ history s1 = history s
                /\ historyIndex s1 = historyIndex s).
  { unfold s1, c0, Desktop.handleMouseDown.
    destruct tool; try contradiction; cbn; repeat split. }
  destruct Hs1 as (Hd1 & Hc1 & Hsh1 & Hh1 & Hi1).
  destruct (moves_while_drawing tool pts s1 c0 Hd1 Hc1)
    as (c & Hc & Hid & Hty & Hx & Hy & _ & Hd & Hs & Hh & Hi).
  exists c.
  cbn [Desktop.run Desktop.step state_of].
  unfold Desktop.handleMouseUp, finishGesture. rewrite Hd, Hc.
  cbn. rewrite Hs, Hh, Hi, Hsh1, Hh1, Hi1.
  repeat split; auto.
  intros ->. cbn in Hc. congruence.
Qed.

Lemma drawing_gesture_adds_one_shape_witness :
  let s' := Desktop.run (drawGesture line 8 30 40 []) afterRectangle in
  exists c,
    shapes s' = shapes afterRectangle ++ [c]
    /\ Shape.id c = JS.toString 8
    /\ Shape.type c = line
    /\ Shape.x c = 30 /\ Shape.y c = 40
    /\ history s'
       = JS.slice0 (history afterRectangle) (historyIndex afterRectangle + 1)
         ++ [shapes afterRectangle ++ [c]]
    /\ historyIndex s' = (Z.of_nat (length (history s')) - 1)%Z
    /\ Idle s'
    /\ (@nil Point.t = [] ->
        c = Shape.fresh (JS.toString 8) line 30 40
              (match line with pen => Some [Point.mk 30 40] | _ => None end)).
Proof.
  apply (drawing_gesture_adds_one_shape line 8 30 40 [] afterRectangle).
  discriminate.
Defined.

(** ** Keyboard commands *)

Local Open Scope Z_scope.

(** X15.  The Delete and Backspace keys remove the selected shape: every
    shape whose id is the selected one leaves the scene, the others stay in
    their order, the new scene is committed after the entries up to the
    cursor, and the selection is cleared.  With nothing selected the key
    changes nothing. *)
Theorem delete_removes_selected (e : KeyboardEvent) (s : State) :
  key e = "Delete"%string \/ key e = "Backspace"%string ->
  (JS.truthy (selectedShapeId s) = true ->
   exists s',
     handleKeyDown e s = Done s'
     /\ shapes s' = without (selectedShapeId s) (shapes s)
     /\ (forall sh, In sh (shapes s')
                    <-> In sh (shapes s) /\ selectedShapeId s <> Some (Shape.id sh))
     /\ history s' = JS.slice0 (history s) (historyIndex s + 1) ++ [shapes s']
     /\ historyIndex s' = Z.of_nat (length (history s')) - 1
     /\ selectedShapeId s' = None)
  /\ (JS.truthy (selectedShapeId s) = false -> handleKeyDown e s = Done s).
Proof.
  intros Hkey.
  assert (Hrun : handleKeyDown e s
                 = if JS.truthy (selectedShapeId s)
                   then Done (setSelectedShapeId None
                                (saveToHistory s (without (selectedShapeId s) (shapes s))
                                   (setShapes (without (selectedShapeId s) (shapes s)) s)))
                   else Done s).
  { unfold handleKeyDown, without.
    destruct Hkey as [Hk | Hk]; rewrite Hk; cbn [String.eqb Ascii.eqb Bool.eqb andb orb];
      destruct (ctrlKey e || metaKey e); reflexivity. }
  rewrite Hrun. split; intros Hsel; rewrite Hsel; [| reflexivity].
  eexists. split; [reflexivity |]. cbn.
  split; [reflexivity |]. split; [| repeat split].
  intros sh. unfold without. rewrite filter_In, negb_true_iff.
  rewrite <- (same_id_true (Shape.id sh) (selectedShapeId s)).
  destruct (JS.same_id (Shape.id sh) (selectedShapeId s)); intuition congruence.
Qed.

Lemma delete_removes_selected_witness :
  (JS.truthy (selectedShapeId dragging) = true ->
   exists s',
     handleKeyDown (mkKey "Delete" false false false) dragging = Done s'
     /\ shapes s' = without (selectedShapeId dragging) (shapes dragging)
     /\ (forall sh, In sh (shapes s')
                    <-> In sh (shapes dragging)
                        /\ selectedShapeId dragging <> Some (Shape.id sh))
     /\ history s'
        = JS.slice0 (history dragging) (historyIndex dragging + 1) ++ [shapes s']
     /\ historyIndex s' = Z.of_nat (length (history s')) - 1
     /\ selectedShapeId s' = None)
  /\ (JS.truthy (selectedShapeId dragging) = false ->
      handleKeyDown (mkKey "Delete" false false false) dragging = Done dragging).
Proof.
  apply (delete_removes_selected (mkKey "Delete" false false false) dragging).
  left. reflexivity.
Defined.

(** X16.  The undo and redo shortcuts: with Ctrl or Cmd held, [z] undoes and
    [y] redoes, and [z] with Shift redoes; without Ctrl and Cmd the keys do
    nothing. *)
Theorem shortcuts_call_history (ctrl meta shift : bool) (s : State) :
  handleKeyDown (mkKey "z" ctrl meta shift) s
  = (if ctrl || meta then (if shift then redo s s else undo s s) else Done s)
  /\ handleKeyDown (mkKey "y" ctrl meta shift) s
     = (if ctrl || meta then redo s s else Done s).
Proof.
  unfold handleKeyDown. cbn [key ctrlKey metaKey shiftKey String.eqb Ascii.eqb Bool.eqb
                             andb orb negb].
  split.
  - destruct (ctrl || meta); [| reflexivity].
    destruct shift; cbn [negb andb orb];
      [destruct (redo s s) | destruct (undo s s)]; reflexivity.
  - destruct (ctrl || meta); [| reflexivity].
    destruct shift; cbn [negb andb orb]; destruct (redo s s); reflexivity.
Qed.

(** What follows a commit in the history. *)
Lemma undo_after_commit (s s1 : State) (scene : Scene) :
  history_ok s ->
  history s1 = firstn (Z.to_nat (historyIndex s + 1)) (history s) ++ [scene] ->
  historyIndex s1 = historyIndex s + 1 ->
  exists s2 s3 prev,
    undo s1 s1 = Done s2
    /\ JS.index (history s) (historyIndex s) = Some prev
    /\ shapes s2 = prev
    /\ historyIndex s2 = historyIndex s
    /\ selectedShapeId s2 = None
    /\ canRedo s2 = true
    /\ redo s2 s2 = Done s3
    /\ shapes s3 = scene
    /\ historyIndex s3 = historyIndex s1
    /\ history s3 = history s1.
Proof.
  intros [Hidx _] Hh Hi.
  destruct (index_in_range (history s) (historyIndex s)) as [prev Hprev]; [lia |].
  assert (Hlen : Z.of_nat (length (history s1)) = historyIndex s + 2).
  { rewrite Hh, length_app, length_firstn. cbn [length]. lia. }
  assert (Hprev1 : JS.index (history s1) (historyIndex s) = Some prev).
  { rewrite Hh, index_app_left by (rewrite length_firstn; lia).
    now rewrite index_firstn by lia. }
  assert (Hlast : JS.index (history s1) (historyIndex s + 1) = Some scene).
  { replace (historyIndex s + 1)
      with (Z.of_nat (length (firstn (Z.to_nat (historyIndex s + 1)) (history s))))
      by (rewrite length_firstn; lia).
    rewrite Hh. apply index_last. }
  exists (setSelectedShapeId None (setShapes prev (setHistoryIndex (historyIndex s) s1))).
  exists (setSelectedShapeId None
            (setShapes scene
               (setHistoryIndex (historyIndex s + 1)
                  (setSelectedShapeId None
                     (setShapes prev (setHistoryIndex (historyIndex s) s1)))))).
  exists prev.
  split.
  { unfold undo. rewrite Hi.
    destruct (Z.gtb_spec (historyIndex s + 1) 0); [| lia].
    replace (historyIndex s + 1 - 1) with (historyIndex s) by lia.
    now rewrite Hprev1. }
  split; [exact Hprev |]. split; [reflexivity |]. split; [reflexivity |].
  split; [reflexivity |].
  split.
  { unfold canRedo. cbn. apply Z.ltb_lt. lia. }
  split.
  { unfold redo. cbn [historyIndex history setSelectedShapeId setShapes setHistoryIndex].
    destruct (Z.ltb_spec (historyIndex s) (Z.of_nat (length (history s1)) - 1)); [| lia].
    now rewrite Hlast. }
  cbn. repeat split; auto.
Qed.

(** X17.  A commit can be taken back and brought forward again: after any
    commit on a well-formed history, [undo()] shows the entry that was under
    the cursor before the commit and makes [canRedo()] true, and a following
    [redo()] shows the committed scene again, at the same cursor and with
    the same history as right after the commit. *)
Theorem commit_undo_redo (s : State) (scene : Scene) :
  history_ok s ->
  let s1 := saveToHistory s scene s in
  exists s2 s3 prev,
    undo s1 s1 = Done s2
    /\ JS.index (history s) (historyIndex s) = Some prev
    /\ shapes s2 = prev
    /\ historyIndex s2 = historyIndex s
    /\ selectedShapeId s2 = None
    /\ canRedo s2 = true
    /\ redo s2 s2 = Done s3
    /\ shapes s3 = scene
    /\ historyIndex s3 = historyIndex s1
    /\ history s3 = history s1.
Proof.
  intros Hok s1.
  apply (undo_after_commit s s1 scene Hok).
  - unfold s1. rewrite saveToHistory_history.
    now rewrite slice0_firstn by (destruct Hok; lia).
  - unfold s1. now destruct (saveToHistory_grows s s scene Hok).
Qed.

Lemma commit_undo_redo_witness :
  let s1 := saveToHistory afterRectangle [] afterRectangle in
  exists s2 s3 prev,
    undo s1 s1 = Done s2
    /\ JS.index (history afterRectangle) (historyIndex afterRectangle) = Some prev
    /\ shapes s2 = prev
    /\ historyIndex s2 = historyIndex afterRectangle
    /\ selectedShapeId s2 = None
    /\ canRedo s2 = true
    /\ redo s2 s2 = Done s3
    /\ shapes s3 = []
    /\ historyIndex s3 = historyIndex s1
    /\ history s3 = history s1.
Proof.
  apply (commit_undo_redo afterRectangle []).
  split; [vm_compute; split; [discriminate | reflexivity] | reflexivity].
Defined.

(** X18.  A deletion can be undone: on a well-formed history whose current
    entry is the scene shown, deleting the selected shape and then pressing
    Ctrl+Z brings back the scene as it was, with nothing selected, and the
    deletion can be redone. *)
Theorem delete_then_undo_restores (s : State) :
  history_ok s ->
  JS.index (history s) (historyIndex s) = Some (shapes s) ->
  JS.truthy (selectedShapeId s) = true ->
  exists s1 s2,
    handleKeyDown (mkKey "Delete" false false false) s = Done s1
    /\ handleKeyDown (mkKey "z" true false false) s1 = Done s2
    /\ shapes s2 = shapes s
    /\ historyIndex s2 = historyIndex s
    /\ selectedShapeId s2 = None
    /\ canRedo s2 = true.
Proof.
  intros Hok Hshown Hsel.
  set (s1 := setSelectedShapeId None
               (saveToHistory s (without (selectedShapeId s) (shapes s))
                  (setShapes (without (selectedShapeId s) (shapes s)) s))).
  assert (Hdel : handleKeyDown (mkKey "Delete" false false false) s = Done s1).
  { unfold handleKeyDown. cbn [key ctrlKey metaKey shiftKey String.eqb Ascii.eqb
                               Bool.eqb andb orb andThen].
    now rewrite Hsel. }
  destruct (undo_after_commit s s1 (without (selectedShapeId s) (shapes s)) Hok)
    as (s2 & s3 & prev & Hu & Hprev & Hsh & Hi & Hnone & Hredo & _).
  - unfold s1. cbn [history setSelectedShapeId]. rewrite saveToHistory_history.
    now rewrite slice0_firstn by (destruct Hok; lia).
  - unfold s1. cbn [historyIndex setSelectedShapeId].
    now destruct (saveToHistory_grows s (setShapes (without (selectedShapeId s) (shapes s)) s)
                    (without (selectedShapeId s) (shapes s)) Hok).
  - exists s1, s2. split; [exact Hdel |]. split.
    + unfold handleKeyDown. cbn [key ctrlKey metaKey shiftKey String.eqb Ascii.eqb
                                 Bool.eqb andb orb negb].
      rewrite Hu. reflexivity.
    + repeat split; auto. congruence.
Qed.

Lemma delete_then_undo_restores_witness :
  exists s1 s2,
    handleKeyDown (mkKey "Delete" false false false) dragging = Done s1
    /\ handleKeyDown (mkKey "z" true false false) s1 = Done s2
    /\ shapes s2 = shapes dragging
    /\ historyIndex s2 = historyIndex dragging
    /\ selectedShapeId s2 = None
    /\ canRedo s2 = true.
Proof.
  apply (delete_then_undo_restores dragging).
  - split; [vm_compute; split; [discriminate | reflexivity] | reflexivity].
  - reflexivity.
  - reflexivity.
Defined.

(** ** The gesture state machine *)

(** X19.  Stray events are harmless: while the machine is idle (nothing being
    drawn, nothing selected) a pointer-move, a pointer-up and the pointer
    leaving the surface change nothing at all, with any tool and in both
    variants. *)
Theorem idle_ignores_pointer (tool : ShapeType) (touch : bool) (x y : R) (s : State) :
  Idle s ->
  Desktop.handleMouseMove tool x y s = s
  /\ Desktop.handleMouseUp tool s = s
  /\ Desktop.onMouseLeave tool s = s
  /\ Touch.handlePointerMove tool (Touch.eventAt touch x y) s = Done s
  /\ Touch.handlePointerUp tool (Touch.eventAt touch x y) s = Done s
  /\ Touch.onMouseLeave tool s = Done s
  /\ Touch.onTouchCancel tool s = Done s.
Proof.
  intros (Hdraw & Hcur & Hsel).
  assert (Hup : finishGesture tool s s = s).
  { unfold finishGesture. rewrite Hdraw, Hsel. cbn [JS.truthy andb].
    rewrite andb_false_r. destruct s; cbn in *. now subst. }
  unfold Desktop.handleMouseMove, Desktop.handleMouseUp, Desktop.onMouseLeave,
    Touch.handlePointerMove, Touch.handlePointerUp, Touch.onMouseLeave,
    Touch.onTouchCancel, Touch.eventAt.
  rewrite Hdraw, Hsel. cbn [JS.truthy andb negb]. rewrite !andb_false_r.
  destruct touch; rewrite Hup; repeat split.
Qed.

Lemma idle_ignores_pointer_witness :
  Desktop.handleMouseMove select 5 5 afterRectangle = afterRectangle
  /\ Desktop.handleMouseUp select afterRectangle = afterRectangle
  /\ Desktop.onMouseLeave select afterRectangle = afterRectangle
  /\ Touch.handlePointerMove select (Touch.eventAt true 5 5) afterRectangle
     = Done afterRectangle
  /\ Touch.handlePointerUp select (Touch.eventAt true 5 5) afterRectangle
     = Done afterRectangle
  /\ Touch.onMouseLeave select afterRectangle = Done afterRectangle
  /\ Touch.onTouchCancel select afterRectangle = Done afterRectangle.
Proof.
  apply (idle_ignores_pointer select true 5 5 afterRectangle).
  repeat split.
Defined.

Lemma handleKeyDown_gesture_fields (e : KeyboardEvent) (s : State) :
  let s' := state_of (handleKeyDown e s) in
  isDrawing s' = isDrawing s /\ currentShape s' = currentShape s
  /\ penPath s' = penPath s.
Proof.
  cbv zeta. unfold handleKeyDown.
  set (q0 := if String.eqb (key e) "Shift" then setIsShiftPressed true s else s).
  assert (Hq0 : isDrawing q0 = isDrawing s /\ currentShape q0 = currentShape s
                /\ penPath q0 = penPath s)
    by (unfold q0; destruct (String.eqb (key e) "Shift"); repeat split).
  set (o := if ctrlKey e || metaKey e then _ else _).
  assert (Ho : isDrawing (state_of o) = isDrawing s
               /\ currentShape (state_of o) = currentShape s
               /\ penPath (state_of o) = penPath s).
  { unfold o, undo, redo.
    destruct (ctrlKey e || metaKey e); [| exact Hq0].
    destruct (String.eqb (key e) "z" && negb (shiftKey e)).
    - destruct (historyIndex s >? 0)%Z; [| exact Hq0].
      destruct (JS.index _ _); exact Hq0.
    - destruct (String.eqb (key e) "y" || String.eqb (key e) "z" && shiftKey e);
        [| exact Hq0].
      destruct (historyIndex s <? _)%Z; [| exact Hq0].
      destruct (JS.index _ _); exact Hq0. }
  destruct o as [q1 | q1]; cbn [andThen state_of] in *; [| exact Ho].
  destruct (String.eqb (key e) "Delete" || String.eqb (key e) "Backspace");
    [| exact Ho].
  destruct (JS.truthy (selectedShapeId s)); exact Ho.
Qed.

Lemma step_gesture_ok (ev : Desktop.Event) (s : State) :
  gesture_ok s -> gesture_ok (state_of (Desktop.step ev s)).
Proof.
  intros Hs.
  assert (Hup : forall tool, gesture_ok (finishGesture tool s s)).
  { intros tool. unfold finishGesture.
    destruct Hs as [(Hd & cur & Hc) | (Hd & Hc & Hp)]; rewrite Hd, ?Hc.
    - right. repeat split.
    - right. destruct (ShapeType_eqb tool select && JS.truthy (selectedShapeId s));
        repeat split; assumption. }
  destruct ev as [tool now x y | tool x y | tool | tool | e | e];
    cbn [Desktop.step state_of].
  - unfold Desktop.handleMouseDown.
    destruct tool; try (left; split; [reflexivity | eexists; reflexivity]).
    destruct (Desktop.topmost x y (shapes s)); exact Hs.
  - unfold Desktop.handleMouseMove.
    destruct (ShapeType_eqb tool select && JS.truthy (selectedShapeId s)
              && negb (isDrawing s)); [exact Hs |].
    destruct (isDrawing s) eqn:Hd; [| exact Hs].
    destruct (currentShape s) as [cur |] eqn:Hc; [| exact Hs].
    left. destruct tool; cbn; rewrite ?Hd; split; auto; eexists; reflexivity.
  - apply Hup.
  - unfold Desktop.onMouseLeave. destruct (isDrawing s); [apply Hup | exact Hs].
  - destruct (handleKeyDown_gesture_fields e s) as (Hd & Hc & Hp).
    unfold gesture_ok. rewrite Hd, Hc, Hp. exact Hs.
  - unfold handleKeyUp. destruct (String.eqb (key e) "Shift"); exact Hs.
Qed.

Lemma run_gesture_ok (evs : list Desktop.Event) (s : State) :
  gesture_ok s -> gesture_ok (Desktop.run evs s).
Proof.
  revert s. induction evs as [| ev rest IH]; intros s Hs; cbn [Desktop.run];
    [exact Hs |].
  now apply IH, step_gesture_ok.
Qed.

(** X20.  Whatever events the mouse-only canvas has received since it was
    mounted, a shape is in progress exactly while [isDrawing] is set, and a
    pointer-up always leaves the machine idle: nothing in progress, nothing
    selected, no pen path under construction. *)
Theorem pointer_up_ends_gesture (evs : list Desktop.Event) (tool : ShapeType) :
  let s := Desktop.run evs initialState in
  gesture_ok s
  /\ Idle (Desktop.handleMouseUp tool s)
  /\ penPath (Desktop.handleMouseUp tool s) = [].
Proof.
  cbv zeta.
  assert (Hs : gesture_ok (Desktop.run evs initialState)).
  { apply run_gesture_ok. right. repeat split. }
  split; [exact Hs |].
  unfold Desktop.handleMouseUp, finishGesture, Idle.
  destruct Hs as [(Hd & cur & Hc) | (Hd & Hc & Hp)]; rewrite Hd, ?Hc.
  - repeat split.
  - destruct (ShapeType_eqb tool select && JS.truthy (selectedShapeId _));
      repeat split; assumption.
Qed.

(** X21.  The history stays well-formed under every sequence of events that
    the host can send, in both variants: the cursor is inside the history
    and the first entry is the empty scene.  In the mouse-only canvas no
    handler throws; in particular undo and redo always find their entry. *)
Theorem canvas_keeps_history_ok (evs : list Desktop.Event) (evs' : list Touch.Event) :
  history_ok (Desktop.run evs initialState)
  /\ (forall ev, exists s', Desktop.step ev (Desktop.run evs initialState) = Done s')
  /\ history_ok (Touch.run evs' initialState).
Proof.
  assert (H : history_ok (Desktop.run evs initialState))
    by (apply desktop_run_ok, initialState_ok).
  split; [exact H |]. split.
  - intros ev. destruct (desktop_step_ok ev _ H) as (s' & Hs' & _). now exists s'.
  - apply touch_run_ok, initialState_ok.
Qed.

Lemma never_drags_run (evs : list Desktop.Event) (s : State) :
  never_drags evs = true -> pen_inv s -> pen_inv (Desktop.run evs s).
Proof.
  revert s. induction evs as [| ev rest IH]; intros s Hnd Hs; cbn [Desktop.run];
    [exact Hs |].
  cbn [never_drags forallb] in Hnd. apply andb_true_iff in Hnd.
  destruct Hnd as [Hev Hrest].
  apply IH; [exact Hrest |]. apply step_pen_inv; [exact Hs |].
  destruct ev as [| tool x y | | | |]; try reflexivity.
  cbn [is_drag_move]. destruct tool; try reflexivity. discriminate.
Qed.

(** X22.  As long as the pointer is never moved with the select tool, every
    pen stroke of the scene, of every snapshot of the history and the one in
    progress has its anchor as the first point of its path, whatever other
    events happen (drawing with any tool, selecting, deleting, undo, redo). *)
Theorem pen_strokes_stay_anchored (evs : list Desktop.Event) :
  never_drags evs = true ->
  let s := Desktop.run evs initialState in
  Forall pen_anchored (shapes s)
  /\ Forall (Forall pen_anchored) (history s)
  /\ forall cur, currentShape s = Some cur -> pen_anchored cur.
Proof.
  intros Hnd s.
  assert (Hinv : pen_inv s).
  { apply never_drags_run; [exact Hnd |].
    split; [constructor | split; [repeat constructor | intros cur Hc; discriminate]]. }
  destruct Hinv as (Hsc & Hh & Hcur).
  split; [exact Hsc |]. split; [exact Hh |].
  intros cur Hc. now apply Hcur.
Qed.

Lemma pen_strokes_stay_anchored_witness :
  let s := Desktop.run (drawGesture pen 1 0 0 [Point.mk 10 0]
                        ++ [Desktop.MouseDown select 2 0 0; Desktop.MouseUp select])
             initialState in
  Forall pen_anchored (shapes s)
  /\ Forall (Forall pen_anchored) (history s)
  /\ forall cur, currentShape s = Some cur -> pen_anchored cur.
Proof.
  apply (pen_strokes_stay_anchored
           (drawGesture pen 1 0 0 [Point.mk 10 0]
            ++ [Desktop.MouseDown select 2 0 0; Desktop.MouseUp select])).
  reflexivity.
Defined.

(** ** Rendering *)

Local Open Scope R_scope.

Lemma polar_distance_back (tx ty a h : R) :
  0 <= h -> distance (tx - h * cos a) (ty - h * sin a) tx ty = h.
Proof.
  intros Hh. unfold distance.
  replace (tx - h * cos a - tx) with (- (cos a * h)) by ring.
  replace (ty - h * sin a - ty) with (- (sin a * h)) by ring.
  rewrite <- !Rsqr_neg, !Rsqr_mult.
  replace (Rsqr (cos a) * Rsqr h + Rsqr (sin a) * Rsqr h)
    with ((Rsqr (sin a) + Rsqr (cos a)) * Rsqr h) by ring.
  rewrite sin2_cos2, Rmult_1_l. now apply sqrt_Rsqr.
Qed.

(** X23.  An arrow is drawn as its shaft, from the anchor to the tip, and two
    head strokes that start at the tip; each head stroke is exactly as long
    as the head length, 15 in the mouse-only canvas and 15 or 20 (on a mobile
    device) in the touch-enabled one.  A missing or zero end coordinate of
    the tip is replaced by the coordinate of the anchor. *)
Theorem arrow_head_strokes (mobile isSelected : bool) (shape : Shape.t) :
  Shape.type shape = arrow ->
  let tx := JS.orElse (Shape.x2 shape) (Shape.x shape) in
  let ty := JS.orElse (Shape.y2 shape) (Shape.y shape) in
  exists style style' ax ay bx by_ ax' ay' bx' by',
    Desktop.drawShape isSelected shape
    = style ++ [beginPath;
                moveTo (Shape.x shape) (Shape.y shape); lineTo tx ty;
                moveTo tx ty; lineTo ax ay;
                moveTo tx ty; lineTo bx by_;
                stroke; restore]
    /\ distance ax ay tx ty = 15 /\ distance bx by_ tx ty = 15
    /\ Touch.drawShape mobile isSelected shape
       = style' ++ [beginPath;
                    moveTo (Shape.x shape) (Shape.y shape); lineTo tx ty;
                    moveTo tx ty; lineTo ax' ay';
                    moveTo tx ty; lineTo bx' by';
                    stroke; restore]
    /\ distance ax' ay' tx ty = (if mobile then 20 else 15)
    /\ distance bx' by' tx ty = (if mobile then 20 else 15).
Proof.
  intros Hty tx ty.
  unfold Desktop.drawShape, Touch.drawShape, drawShapeWith, tracePath.
  rewrite Hty. cbv zeta. fold tx ty.
  set (style := fun w : R =>
         [save;
          strokeStyle (if isSelected then "#4285f4" else "#1a1a1a")%string;
          lineWidth w; lineCap "round"; lineJoin "round"]
         ++ (if isSelected then [setLineDash [5; 5]] else [])).
  exists (style (if isSelected then 2 else 15 / 10)).
  exists (style (if mobile then (if isSelected then 3 else 2)
                 else (if isSelected then 2 else 15 / 10))).
  do 8 eexists. unfold style.
  split; [destruct isSelected; cbn [app]; reflexivity |].
  split; [apply polar_distance_back; lra |].
  split; [apply polar_distance_back; lra |].
  split; [destruct isSelected; cbn [app]; reflexivity |].
  split; apply polar_distance_back; destruct mobile; lra.
Qed.

(** An arrow from (0,0) to (30,40). *)
Lemma arrow_head_strokes_witness :
  let shape := Shape.with_end 30 40 (Shape.fresh "9" arrow 0 0 None) in
  let tx := JS.orElse (Shape.x2 shape) (Shape.x shape) in
  let ty := JS.orElse (Shape.y2 shape) (Shape.y shape) in
  exists style style' ax ay bx by_ ax' ay' bx' by',
    Desktop.drawShape false shape
    = style ++ [beginPath;
                moveTo (Shape.x shape) (Shape.y shape); lineTo tx ty;
                moveTo tx ty; lineTo ax ay;
                moveTo tx ty; lineTo bx by_;
                stroke; restore]
    /\ distance ax ay tx ty = 15 /\ distance bx by_ tx ty = 15
    /\ Touch.drawShape true false shape
       = style' ++ [beginPath;
                    moveTo (Shape.x shape) (Shape.y shape); lineTo tx ty;
                    moveTo tx ty; lineTo ax' ay';
                    moveTo tx ty; lineTo bx' by';
                    stroke; restore]
    /\ distance ax' ay' tx ty = 20
    /\ distance bx' by' tx ty = 20.
Proof.
  apply (arrow_head_strokes true false
           (Shape.with_end 30 40 (Shape.fresh "9" arrow 0 0 None))).
  reflexivity.
Defined.




(** X25.  A line whose end has no x coordinate, or the x coordinate 0, is
    drawn and hit-tested differently: the stroke goes to the x of the anchor,
    while the hit test accepts the points of the segment that ends at x = 0.
    A line made by a press and a release without a move (no end at all) is
    thus drawn as a single point at its anchor but selected along the whole
    segment from the anchor to the origin of the canvas. *)
Theorem line_to_left_edge (mobile : bool) (headLength u : R) (shape : Shape.t) :
  Shape.type shape = line ->
  JS.orZero (Shape.x2 shape) = 0 ->
  0 <= u <= 1 ->
  (exists ey,
     tracePath headLength shape
     = [moveTo (Shape.x shape) (Shape.y shape); lineTo (Shape.x shape) ey]
     /\ (Shape.y2 shape = None -> ey = Shape.y shape))
  /\ Desktop.isInsideShape (along u (Shape.x shape) 0)
       (along u (Shape.y shape) (JS.orZero (Shape.y2 shape))) shape = true
  /\ Touch.isInsideShape mobile (along u (Shape.x shape) 0)
       (along u (Shape.y shape) (JS.orZero (Shape.y2 shape))) shape = true.
Proof.
  intros Hty Hx2 Hu. split.
  - unfold tracePath. rewrite Hty. eexists. split.
    + f_equal. f_equal. f_equal. unfold JS.orElse.
      destruct (Shape.x2 shape) as [r |]; [| reflexivity].
      cbn in Hx2. destruct (Req_dec_T r 0); [reflexivity | contradiction].
    + intros ->. reflexivity.
  - assert (H8 : JS.ltb 0 8 = true) by (apply ltb_true; lra).
    assert (Ht : JS.ltb 0 (if mobile then 15 else 8) = true)
      by (apply ltb_true; destruct mobile; lra).
    unfold Desktop.isInsideShape, Touch.isInsideShape. cbv zeta.
    rewrite Hty, Hx2, on_segment_distance_zero by exact Hu.
    cbn [closerThan]. auto.
Qed.

Lemma line_to_left_edge_witness :
  (exists ey,
     tracePath 15 untouchedLine
     = [moveTo (Shape.x untouchedLine) (Shape.y untouchedLine);
        lineTo (Shape.x untouchedLine) ey]
     /\ (Shape.y2 untouchedLine = None -> ey = Shape.y untouchedLine))
  /\ Desktop.isInsideShape (along 1 (Shape.x untouchedLine) 0)
       (along 1 (Shape.y untouchedLine) (JS.orZero (Shape.y2 untouchedLine)))
       untouchedLine = true
  /\ Touch.isInsideShape false (along 1 (Shape.x untouchedLine) 0)
       (along 1 (Shape.y untouchedLine) (JS.orZero (Shape.y2 untouchedLine)))
       untouchedLine = true.
Proof.
  apply (line_to_left_edge false 15 1 untouchedLine).
  - reflexivity.
  - reflexivity.
  - lra.
Defined.

Local Open Scope Z_scope.

(** With enough fuel a loop of [drawGrid] visits [from], [from + gridSize], ...
    as long as the value does not exceed [limit]. *)
Lemma gridLoop_stops (emit : Z -> list Cmd) (gridSize limit : Z) (n : nat) :
  0 < gridSize ->
  forall (from : Z) (fuel : nat),
    (n <= fuel)%nat ->
    (from <= limit -> Z.of_nat n = (limit - from) / gridSize + 1) ->
    (limit < from -> n = O) ->
    gridLoop fuel emit gridSize limit from
    = flat_map emit (map (fun k => from + Z.of_nat k * gridSize) (seq 0 n)).
Proof.
  intros Hg. induction n as [| m IH]; intros from fuel Hfuel Hin Hout.
  - assert (Hlt : limit < from).
    { destruct (Z_lt_le_dec limit from) as [H | H]; [exact H |].
      specialize (Hin H).
      assert (0 <= (limit - from) / gridSize) by (apply Z.div_pos; lia). lia. }
    destruct fuel as [| fuel]; cbn; [reflexivity |].
    destruct (Z.leb_spec from limit); [lia | reflexivity].
  - assert (Hle : from <= limit).
    { destruct (Z_lt_le_dec limit from) as [H | H]; [| exact H].
      specialize (Hout H). discriminate. }
    specialize (Hin Hle).
    destruct fuel as [| fuel]; [lia |].
    cbn [gridLoop]. destruct (Z.leb_spec from limit); [| lia].
    rewrite (IH (from + gridSize) fuel); [| lia | |].
    + cbn [seq map flat_map]. rewrite <- seq_shift, map_map.
      replace (from + Z.of_nat 0 * gridSize) with from by lia.
      f_equal. f_equal. apply map_ext. intros k. lia.
    + intros Hnext.
      replace (limit - from) with ((limit - (from + gridSize)) + 1 * gridSize) in Hin by lia.
      rewrite Z.div_add in Hin by lia. lia.
    + intros Hnext.
      rewrite Z.div_small in Hin by lia. lia.
Qed.

Lemma multiples_spec (gridSize limit x : Z) :
  0 < gridSize -> 0 <= limit ->
  In x (multiples gridSize limit) <-> 0 <= x <= limit /\ x mod gridSize = 0.
Proof.
  intros Hg Hl. unfold multiples. rewrite in_map_iff.
  assert (Hq : 0 <= limit / gridSize) by (apply Z.div_pos; lia).
  split.
  - intros (k & <- & Hk). apply in_seq in Hk.
    split; [| apply Z.mod_mul; lia].
    split; [nia |].
    assert (Z.of_nat k <= limit / gridSize) by lia.
    pose proof (Z.mul_div_le limit gridSize Hg). nia.
  - intros [[H0 Hx] Hmod].
    exists (Z.to_nat (x / gridSize)).
    assert (0 <= x / gridSize) by (apply Z.div_pos; lia).
    split.
    + rewrite Z2Nat.id by assumption.
      pose proof (Z.div_mod x gridSize). lia.
    + apply in_seq.
      assert (x / gridSize <= limit / gridSize) by (apply Z.div_le_mono; lia). lia.
Qed.

(** X26.  The grid consists of one vertical line for each multiple of the
    grid size from 0 up to the width of the canvas and one horizontal line
    for each multiple up to its height, drawn in increasing order and never
    outside the canvas, as soon as the loops are given enough iterations.
    The grid size is 20, or 15 on a mobile device in the touch-enabled
    canvas. *)
Theorem grid_lines_at_multiples (fuel : nat) (width height : Z) (s : State) :
  0 <= width -> 0 <= height ->
  (Z.to_nat (width / 15 + 1) <= fuel)%nat ->
  (Z.to_nat (height / 15 + 1) <= fuel)%nat ->
  let gridSize := if isMobile s then 15 else 20 in
  Desktop.drawGrid fuel width height
  = [strokeStyle "#e5e5e5"; lineWidth (5 / 10)]
    ++ flat_map (verticalLine height) (multiples 20 width)
    ++ flat_map (horizontalLine width) (multiples 20 height)
  /\ Touch.drawGrid fuel width height s
     = [strokeStyle "#e5e5e5"; lineWidth (5 / 10)]
       ++ flat_map (verticalLine height) (multiples gridSize width)
       ++ flat_map (horizontalLine width) (multiples gridSize height)
  /\ (forall x, In x (multiples gridSize width)
                <-> 0 <= x <= width /\ x mod gridSize = 0)
  /\ (forall y, In y (multiples gridSize height)
                <-> 0 <= y <= height /\ y mod gridSize = 0).
Proof.
  intros Hw Hh Hfw Hfh gridSize.
  assert (Hloop : forall g limit emit,
            0 < g -> g = 15 \/ g = 20 -> 0 <= limit ->
            (Z.to_nat (limit / 15 + 1) <= fuel)%nat ->
            gridLoop fuel emit g limit 0 = flat_map emit (multiples g limit)).
  { intros g limit emit Hg Hg' Hl Hf.
    assert (Hq : 0 <= limit / g) by (apply Z.div_pos; lia).
    assert (Hmono : limit / g <= limit / 15).
    { destruct Hg' as [-> | ->]; [lia |].
      apply Z.div_le_compat_l; lia. }
    rewrite (gridLoop_stops emit g limit (Z.to_nat (limit / g + 1)) Hg 0 fuel).
    - reflexivity.
    - lia.
    - intros _. rewrite Z.sub_0_r. lia.
    - lia. }
  assert (Hg : 0 < gridSize /\ (gridSize = 15 \/ gridSize = 20))
    by (unfold gridSize; destruct (isMobile s); lia).
  destruct Hg as [Hg Hg'].
  split; [| split; [| split]].
  - unfold Desktop.drawGrid, drawGridWith.
    rewrite !Hloop by (auto; lia). reflexivity.
  - unfold Touch.drawGrid, drawGridWith. fold gridSize.
    rewrite !Hloop by (auto; lia). reflexivity.
  - intros x. now apply multiples_spec.
  - intros y. now apply multiples_spec.
Qed.

Lemma grid_lines_at_multiples_witness :
  let gridSize := if isMobile initialState then 15 else 20 in
  Desktop.drawGrid 10 100 50
  = [strokeStyle "#e5e5e5"; lineWidth (5 / 10)]
    ++ flat_map (verticalLine 50) (multiples 20 100)
    ++ flat_map (horizontalLine 100) (multiples 20 50)
  /\ Touch.drawGrid 10 100 50 initialState
     = [strokeStyle "#e5e5e5"; lineWidth (5 / 10)]
       ++ flat_map (verticalLine 50) (multiples gridSize 100)
       ++ flat_map (horizontalLine 100) (multiples gridSize 50)
  /\ (forall x, In x (multiples gridSize 100)
                <-> 0 <= x <= 100 /\ x mod gridSize = 0)
  /\ (forall y, In y (multiples gridSize 50)
                <-> 0 <= y <= 50 /\ y mod gridSize = 0).
Proof.
  apply (grid_lines_at_multiples 10 100 50 initialState).
  - lia.
  - lia.
  - vm_compute. lia.
  - vm_compute. lia.
Defined.

(** ** More on the history and on the touch-enabled canvas *)

(** X27.  Redo followed by undo is the identity on the scene as well: when
    the cursor is not on the last entry of a well-formed history whose
    current entry is the scene shown, [redo()] and then [undo()] return
    without throwing and restore the scene and the cursor; the history is
    untouched. *)
Theorem redo_undo_inverse (s : State) :
  0 <= historyIndex s < Z.of_nat (length (history s)) - 1 ->
  JS.index (history s) (historyIndex s) = Some (shapes s) ->
  exists s1 s2,
    redo s s = Done s1 /\ undo s1 s1 = Done s2
    /\ shapes s2 = shapes s
    /\ historyIndex s2 = historyIndex s
    /\ history s2 = history s.
Proof.
  intros Hidx Hshown.
  destruct (index_in_range (history s) (historyIndex s + 1)) as [sc Hsc]; [lia |].
  exists (setSelectedShapeId None (setShapes sc (setHistoryIndex (historyIndex s + 1) s))).
  eexists. split.
  - unfold redo.
    destruct (Z.ltb_spec (historyIndex s) (Z.of_nat (length (history s)) - 1)); [| lia].
    now rewrite Hsc.
  - unfold undo. cbn [historyIndex history setSelectedShapeId setShapes setHistoryIndex].
    destruct (Z.gtb_spec (historyIndex s + 1) 0); [| lia].
    replace (historyIndex s + 1 - 1) with (historyIndex s) by lia.
    rewrite Hshown. split; [reflexivity |]. cbn. auto.
Qed.

Lemma redo_undo_inverse_witness :
  exists s1 s2,
    redo pressedAfterUndo pressedAfterUndo = Done s1 /\ undo s1 s1 = Done s2
    /\ shapes s2 = shapes pressedAfterUndo
    /\ historyIndex s2 = historyIndex pressedAfterUndo
    /\ history s2 = history pressedAfterUndo.
Proof.
  apply (redo_undo_inverse pressedAfterUndo).
  - vm_compute. split; [discriminate | reflexivity].
  - reflexivity.
Defined.

Local Open Scope R_scope.

(** X28.  On a mobile device the touch-enabled canvas squares a rectangle in
    progress without the shift key whenever its width and height differ by
    less than 50, and leaves it free otherwise.  In particular every
    rectangle whose sides are both shorter than 25 becomes a square. *)
Theorem mobile_squares_similar_sides (touch : bool) (x y : R) (s : State) (cur : Shape.t) :
  Drawing s cur ->
  isMobile s = true -> isShiftPressed s = false ->
  let dx := x - startX s in
  let dy := y - startY s in
  let size := Rmax (Rabs dx) (Rabs dy) in
  exists w h,
    Touch.handlePointerMove rectangle (Touch.eventAt touch x y) s
    = Done (setCurrentShape (Some (Shape.with_size w h cur)) s)
    /\ (Rabs (dx - dy) < 50 -> Rabs w = size /\ Rabs h = size)
    /\ (50 <= Rabs (dx - dy) -> w = dx /\ h = dy)
    /\ (Rabs dx < 25 -> Rabs dy < 25 -> Rabs w = size /\ Rabs h = size).
Proof.
  intros [Hdraw Hcur] Hmob Hshift dx dy size.
  destruct (square_side dx dy) as (Hw & _).
  pose proof (square_side dy dx) as Hside. cbv zeta in Hside.
  rewrite (Rmax_comm (Rabs dy)) in Hside. destruct Hside as (Hh & _).
  do 2 eexists. split.
  - unfold Touch.handlePointerMove, Touch.eventAt.
    destruct touch; rewrite Hdraw, Hcur;
      cbn [ShapeType_eqb andb updateDrawing]; rewrite Hshift, Hmob;
      cbn [orb andb]; reflexivity.
  - fold dx dy.
    destruct (JS.ltb (Rabs (dx - dy)) 50) eqn:Hnear;
      [apply ltb_true in Hnear | apply ltb_false in Hnear].
    + repeat split; auto; intros; exfalso; lra.
    + repeat split; auto; intros; exfalso; try lra.
      * revert Hnear. split_abs; lra.
      * revert Hnear. split_abs; lra.
Qed.

Lemma mobile_squares_similar_sides_witness :
  let s := setIsMobile true (Desktop.handleMouseDown rectangle 1 0 0 initialState) in
  let cur := Shape.fresh "1" rectangle 0 0 None in
  let dx := 20 - startX s in
  let dy := 10 - startY s in
  let size := Rmax (Rabs dx) (Rabs dy) in
  exists w h,
    Touch.handlePointerMove rectangle (Touch.eventAt true 20 10) s
    = Done (setCurrentShape (Some (Shape.with_size w h cur)) s)
    /\ (Rabs (dx - dy) < 50 -> Rabs w = size /\ Rabs h = size)
    /\ (50 <= Rabs (dx - dy) -> w = dx /\ h = dy)
    /\ (Rabs dx < 25 -> Rabs dy < 25 -> Rabs w = size /\ Rabs h = size).
Proof.
  apply (mobile_squares_similar_sides true 20 10
           (setIsMobile true (Desktop.handleMouseDown rectangle 1 0 0 initialState))
           (Shape.fresh "1" rectangle 0 0 None)).
  - split; reflexivity.
  - reflexivity.
  - reflexivity.
Defined.


